(** * Multilingual Communication Assistant: the turn pipeline and the
      conversation loop

    A shallow embedding of [src/gemini_client.py], [src/gui_app.py],
    [src/voice_assistant.py] and [src/main.py].

    - Python text ([str]) is modelled by [string]: a sequence of code points
      below 256.  [strip], [lower] and [isspace] follow CPython on that
      range.  Literals of the source with characters above it (the symbols
      in labels and messages) stand as their UTF-8 bytes; they are only
      ever compared for equality.
    - The attributes of the GUI object ([self.conversation_active],
      [self.input_language], ...) are the fields of one record, [GUI].
    - A method that runs on a background thread is a value of [Thread]: a
      tree of atomic steps, each of which reads or writes the shared object
      once or performs one call to an external service.  [run] executes such
      a thread under a schedule of foreground (Tk main thread) handlers that
      are interleaved between its atomic steps.
    - What a background thread hands to the main thread with
      [root.after(0, ...)] is kept in a queue.  A queued [lambda] reads the
      variables of the thread that made it when the main thread runs it:
      these variables are part of the shared state, and [except ... as e]
      binds [e] for the time of the clause only.
    - The external services (translation, inference, synthesis, playback)
      are the fields of [World]; every use of one is recorded in the
      [log] of the state, in order, with the messages, prints and
      dialogs. *)

From Stdlib Require Import Ascii String NArith.
From stdpp Require Import gmap strings list.

Local Open Scope string_scope.
Local Open Scope list_scope.

(** ** Python text *)

Module Py.

(** [str.isspace] for one code point below 256: TAB..CR, FS..US, SPACE,
    NEL (0x85) and NBSP (0xA0). *)
Definition isspace (c : ascii) : bool :=
  let n := N_of_ascii c in
  ((9 <=? n) && (n <=? 13) || (28 <=? n) && (n <=? 32)
   || (n =? 133) || (n =? 160))%N.

Fixpoint lstrip (s : string) : string :=
  match s with
  | EmptyString => EmptyString
  | String c r => if isspace c then lstrip r else s
  end.

Fixpoint rstrip (s : string) : string :=
  match s with
  | EmptyString => EmptyString
  | String c r =>
      match rstrip r with
      | EmptyString => if isspace c then EmptyString else String c EmptyString
      | r' => String c r'
      end
  end.

(** [s.strip()] *)
Definition strip (s : string) : string := rstrip (lstrip s).

(** [str.lower] for one code point below 256: A..Z and the Latin-1 capitals
    0xC0..0xDE (without the multiplication sign 0xD7) move up by 32. *)
Definition lower_char (c : ascii) : ascii :=
  let n := N_of_ascii c in
  if ((65 <=? n) && (n <=? 90)
      || (192 <=? n) && (n <=? 222) && negb (n =? 215))%N
  then ascii_of_N (n + 32) else c.

Fixpoint lower (s : string) : string :=
  match s with
  | EmptyString => EmptyString
  | String c r => String (lower_char c) (lower r)
  end.

Definition is_ascii_lower (c : ascii) : bool :=
  let n := N_of_ascii c in ((97 <=? n) && (n <=? 122))%N.

Definition is_ascii_upper (c : ascii) : bool :=
  let n := N_of_ascii c in ((65 <=? n) && (n <=? 90))%N.

(** [s.title()], on ASCII letters (the keys of [languages_dict] are ASCII
    words); any other character is kept and starts a new word. *)
Fixpoint title_from (prev_cased : bool) (s : string) : string :=
  match s with
  | EmptyString => EmptyString
  | String c r =>
      if is_ascii_lower c then
        String (if prev_cased then c else ascii_of_N (N_of_ascii c - 32))
               (title_from true r)
      else if is_ascii_upper c then
        String (if prev_cased then ascii_of_N (N_of_ascii c + 32) else c)
               (title_from true r)
      else String c (title_from false r)
  end.

Definition title (s : string) : string := title_from false s.

(** Truth value of a [str]: the empty string is false. *)
Definition truthy (s : string) : bool :=
  match s with EmptyString => false | _ => true end.

(** [x in xs] for a list of strings. *)
Definition contains (xs : list string) (x : string) : bool :=
  existsb (String.eqb x) xs.

End Py.

(** ** Exceptions, external services and the shared object *)

(** The exceptions the code distinguishes: the two of [speech_recognition]
    that the loops handle apart, and any other subclass of [Exception]
    (device errors, request errors, [AttributeError], [IndexError], ...).
    [BaseException]s outside [Exception] are not modelled. *)
Inductive exn : Type :=
| WaitTimeoutError (msg : string)
| UnknownValueError (msg : string)
| Exception (msg : string).

(** [str(e)] *)
Definition exn_str (e : exn) : string :=
  match e with
  | WaitTimeoutError m | UnknownValueError m | Exception m => m
  end.

Inductive outcome (A : Type) : Type :=
| Returned (a : A)
| Raised (e : exn).
Arguments Returned {A} a.
Arguments Raised {A} e.

(** The services behind the adapters. *)
Record World : Type := {
  (** [GoogleTranslator(source, target).translate(text)] *)
  translate : string -> string -> string -> outcome string;
  (** [self.model.generate_content(prompt).text] *)
  generate_content : string -> outcome string;
  (** [gTTS(text, lang, slow=False)] saved to a fresh temporary [.mp3];
      the result is the file name *)
  gTTS_save : string -> string -> outcome string;
  (** [play_audio(audio_file)] of the [audio] module, as [gui_app.py]
      calls it *)
  play_audio : string -> outcome unit;
  (** [play_audio(text, language=code)], as [voice_assistant.py] calls it *)
  play_audio_text : string -> string -> outcome unit;
}.

(** One pass through the microphone block of a loop: the outcome of
    [sr.Microphone()], [adjust_for_ambient_noise] and [listen] together, and
    what [recognize_google(audio, language)] then gives. *)
Record attempt : Type := {
  listen : outcome unit;
  recognize_google : string -> outcome string;
}.

Definition heard (text : string) : attempt :=
  {| listen := Returned tt; recognize_google := fun _ => Returned text |}.
Definition timed_out : attempt :=
  {| listen := Raised (WaitTimeoutError "listening timed out");
     recognize_google := fun _ => Raised (UnknownValueError "") |}.
Definition unintelligible : attempt :=
  {| listen := Returned tt;
     recognize_google := fun _ => Raised (UnknownValueError "") |}.

(** Work handed to [threading.Thread(target=..., daemon=True).start()]. *)
Inductive task : Type :=
| TaskVoiceLoop
| TaskProcessText (message : string)
| TaskPlayResponseAudio (text : string).

(** Work handed to the Tk main thread with [self.root.after(0, ...)]:
    [self.stop_conversation], or a [lambda] that calls [self.add_message].
    A lambda reads the variables of the thread that queued it when the main
    thread runs it, not when it is queued.  [CbAddMessage] is a lambda whose
    text cannot change in between: a literal, or [translated_response], which
    is assigned once, before the lambda is made, in a frame of its own.  The
    three others read a variable that is bound again or unbound later. *)
Inductive callback : Type :=
| CbStopConversation
| CbAddMessage (msg_type message : string)
| CbUserMessage     (* [lambda: self.add_message("user", user_text)] *)
| CbVoiceError      (* [lambda: self.add_message("error", f"Voice error: {e}")] *)
| CbProcessingError (frame : nat)
    (* [lambda: self.add_message("error", f"Processing error: {e}")] of the
       call of [process_voice_message] numbered [frame] *).

(** What the program does that can be observed, in order. *)
Inductive event : Type :=
| Message (msg_type message : string)        (* [add_message] *)
| Print (line : string)                      (* [print] *)
| Dialog (kind title text : string)          (* [messagebox.show...] *)
| Spawn (t : task)
| Listen
| Recognize (language : string)
| Translate (source target text : string)
| Generate (prompt : string)
| Synthesize (text language : string)
| Play (audio_file : string)
| PlayText (text language : string)
| Sleep (milliseconds : N)
| CallbackException (msg : string).          (* a Tk callback that raised *)

(** The attributes of [self] that the modelled methods use.  A language
    profile is the Python list [[name, recognition locale, translation
    code]]; [gemini_client] says whether the attribute exists;
    [text_input] and [text_input_fg] are the content and the text colour of
    the entry box.

    The last fields but [log] are not attributes: they are the variables of
    the background thread that the lambdas in [after_queue] read, which the
    main thread therefore sees ([None] is a variable that is not bound):
    [loop_user_text] and [loop_e] are [user_text] and [e] of the running
    [voice_loop]; every call of [process_voice_message] has a frame and an
    [e] of its own: [turn_frames] counts the calls made so far and [turn_e]
    is the [e] of the newest one (the [e] of an older call is unbound for
    good). *)
Record GUI : Type := {
  input_language : list string;
  output_language : list string;
  current_language : string;
  conversation_active : bool;
  voice_enabled : bool;
  gemini_client : bool;
  input_lang_var : string;
  output_lang_var : string;
  text_input : string;
  text_input_fg : string;
  start_btn : string;
  status_label : string;
  after_queue : list callback;
  loop_user_text : option string;
  loop_e : option string;
  turn_frames : nat;
  turn_e : option string;
  log : list event;
}.

Definition set_input_language (v : list string) (g : GUI) : GUI :=
  {| input_language := v; output_language := output_language g;
     current_language := current_language g;
     conversation_active := conversation_active g;
     voice_enabled := voice_enabled g; gemini_client := gemini_client g;
     input_lang_var := input_lang_var g; output_lang_var := output_lang_var g;
     text_input := text_input g; text_input_fg := text_input_fg g;
     start_btn := start_btn g; status_label := status_label g;
     after_queue := after_queue g; loop_user_text := loop_user_text g;
     loop_e := loop_e g; turn_frames := turn_frames g; turn_e := turn_e g;
     log := log g |}.

Definition set_output_language (v : list string) (g : GUI) : GUI :=
  {| input_language := input_language g; output_language := v;
     current_language := current_language g;
     conversation_active := conversation_active g;
     voice_enabled := voice_enabled g; gemini_client := gemini_client g;
     input_lang_var := input_lang_var g; output_lang_var := output_lang_var g;
     text_input := text_input g; text_input_fg := text_input_fg g;
     start_btn := start_btn g; status_label := status_label g;
     after_queue := after_queue g; loop_user_text := loop_user_text g;
     loop_e := loop_e g; turn_frames := turn_frames g; turn_e := turn_e g;
     log := log g |}.

Definition set_current_language (v : string) (g : GUI) : GUI :=
  {| input_language := input_language g; output_language := output_language g;
     current_language := v; conversation_active := conversation_active g;
     voice_enabled := voice_enabled g; gemini_client := gemini_client g;
     input_lang_var := input_lang_var g; output_lang_var := output_lang_var g;
     text_input := text_input g; text_input_fg := text_input_fg g;
     start_btn := start_btn g; status_label := status_label g;
     after_queue := after_queue g; loop_user_text := loop_user_text g;
     loop_e := loop_e g; turn_frames := turn_frames g; turn_e := turn_e g;
     log := log g |}.

Definition set_conversation_active (v : bool) (g : GUI) : GUI :=
  {| input_language := input_language g; output_language := output_language g;
     current_language := current_language g; conversation_active := v;
     voice_enabled := voice_enabled g; gemini_client := gemini_client g;
     input_lang_var := input_lang_var g; output_lang_var := output_lang_var g;
     text_input := text_input g; text_input_fg := text_input_fg g;
     start_btn := start_btn g; status_label := status_label g;
     after_queue := after_queue g; loop_user_text := loop_user_text g;
     loop_e := loop_e g; turn_frames := turn_frames g; turn_e := turn_e g;
     log := log g |}.

Definition set_lang_vars (i o : string) (g : GUI) : GUI :=
  {| input_language := input_language g; output_language := output_language g;
     current_language := current_language g;
     conversation_active := conversation_active g;
     voice_enabled := voice_enabled g; gemini_client := gemini_client g;
     input_lang_var := i; output_lang_var := o; text_input := text_input g;
     text_input_fg := text_input_fg g; start_btn := start_btn g;
     status_label := status_label g; after_queue := after_queue g;
     loop_user_text := loop_user_text g; loop_e := loop_e g;
     turn_frames := turn_frames g; turn_e := turn_e g; log := log g |}.

Definition set_text_input (v : string) (g : GUI) : GUI :=
  {| input_language := input_language g; output_language := output_language g;
     current_language := current_language g;
     conversation_active := conversation_active g;
     voice_enabled := voice_enabled g; gemini_client := gemini_client g;
     input_lang_var := input_lang_var g; output_lang_var := output_lang_var g;
     text_input := v; text_input_fg := text_input_fg g;
     start_btn := start_btn g; status_label := status_label g;
     after_queue := after_queue g; loop_user_text := loop_user_text g;
     loop_e := loop_e g; turn_frames := turn_frames g; turn_e := turn_e g;
     log := log g |}.

(** [self.text_input.config(fg=...)] *)
Definition set_text_input_fg (v : string) (g : GUI) : GUI :=
  {| input_language := input_language g; output_language := output_language g;
     current_language := current_language g;
     conversation_active := conversation_active g;
     voice_enabled := voice_enabled g; gemini_client := gemini_client g;
     input_lang_var := input_lang_var g; output_lang_var := output_lang_var g;
     text_input := text_input g; text_input_fg := v; start_btn := start_btn g;
     status_label := status_label g; after_queue := after_queue g;
     loop_user_text := loop_user_text g; loop_e := loop_e g;
     turn_frames := turn_frames g; turn_e := turn_e g; log := log g |}.

(** [self.start_btn.config(text=...)] and [self.status_label.config(text=...)] *)
Definition set_labels (btn status : string) (g : GUI) : GUI :=
  {| input_language := input_language g; output_language := output_language g;
     current_language := current_language g;
     conversation_active := conversation_active g;
     voice_enabled := voice_enabled g; gemini_client := gemini_client g;
     input_lang_var := input_lang_var g; output_lang_var := output_lang_var g;
     text_input := text_input g; text_input_fg := text_input_fg g;
     start_btn := btn; status_label := status; after_queue := after_queue g;
     loop_user_text := loop_user_text g; loop_e := loop_e g;
     turn_frames := turn_frames g; turn_e := turn_e g; log := log g |}.

Definition set_after_queue (v : list callback) (g : GUI) : GUI :=
  {| input_language := input_language g; output_language := output_language g;
     current_language := current_language g;
     conversation_active := conversation_active g;
     voice_enabled := voice_enabled g; gemini_client := gemini_client g;
     input_lang_var := input_lang_var g; output_lang_var := output_lang_var g;
     text_input := text_input g; text_input_fg := text_input_fg g;
     start_btn := start_btn g; status_label := status_label g;
     after_queue := v; loop_user_text := loop_user_text g; loop_e := loop_e g;
     turn_frames := turn_frames g; turn_e := turn_e g; log := log g |}.

(** The variables that the queued lambdas read. *)
Definition set_cells (user_text e : option string) (frames : nat)
    (e' : option string) (g : GUI) : GUI :=
  {| input_language := input_language g; output_language := output_language g;
     current_language := current_language g;
     conversation_active := conversation_active g;
     voice_enabled := voice_enabled g; gemini_client := gemini_client g;
     input_lang_var := input_lang_var g; output_lang_var := output_lang_var g;
     text_input := text_input g; text_input_fg := text_input_fg g;
     start_btn := start_btn g; status_label := status_label g;
     after_queue := after_queue g; loop_user_text := user_text; loop_e := e;
     turn_frames := frames; turn_e := e'; log := log g |}.

(** [user_text = ...] in [voice_loop]. *)
Definition bind_user_text (text : string) (g : GUI) : GUI :=
  set_cells (Some text) (loop_e g) (turn_frames g) (turn_e g) g.

(** [except Exception as e:] in [voice_loop] binds [e] to the exception,
    whose text is [msg]; the end of the block unbinds it. *)
Definition bind_loop_e (msg : string) (g : GUI) : GUI :=
  set_cells (loop_user_text g) (Some msg) (turn_frames g) (turn_e g) g.
Definition unbind_loop_e (g : GUI) : GUI :=
  set_cells (loop_user_text g) None (turn_frames g) (turn_e g) g.

(** A call of [process_voice_message]: a new frame, in which [e] is not
    bound; then the same for its [except Exception as e:]. *)
Definition new_turn_frame (g : GUI) : GUI :=
  set_cells (loop_user_text g) (loop_e g) (S (turn_frames g)) None g.
Definition bind_turn_e (msg : string) (g : GUI) : GUI :=
  set_cells (loop_user_text g) (loop_e g) (turn_frames g) (Some msg) g.
Definition unbind_turn_e (g : GUI) : GUI :=
  set_cells (loop_user_text g) (loop_e g) (turn_frames g) None g.

(** Append one event to the log. *)
Definition emit (e : event) (g : GUI) : GUI :=
  {| input_language := input_language g; output_language := output_language g;
     current_language := current_language g;
     conversation_active := conversation_active g;
     voice_enabled := voice_enabled g; gemini_client := gemini_client g;
     input_lang_var := input_lang_var g; output_lang_var := output_lang_var g;
     text_input := text_input g; text_input_fg := text_input_fg g;
     start_btn := start_btn g; status_label := status_label g;
     after_queue := after_queue g; loop_user_text := loop_user_text g;
     loop_e := loop_e g; turn_frames := turn_frames g; turn_e := turn_e g;
     log := log g ++ [e] |}.

(** [self.root.after(0, cb)] *)
Definition after (cb : callback) (g : GUI) : GUI :=
  set_after_queue (after_queue g ++ [cb]) g.

(** ** Background threads *)

(** A method run on a background thread: it returns, raises, or performs
    one atomic step and goes on.  In [Atomic step next] the step reads the
    shared object [g], leaves it as [step g], and the thread goes on as
    [next g]. *)
Inductive Thread (A : Type) : Type :=
| Ret (a : A)
| Throw (e : exn)
| Atomic (step : GUI -> GUI) (next : GUI -> Thread A).
Arguments Ret {A} a.
Arguments Throw {A} e.
Arguments Atomic {A} step next.

Fixpoint bind {A B : Type} (t : Thread A) (k : A -> Thread B) : Thread B :=
  match t with
  | Ret a => k a
  | Throw e => Throw e
  | Atomic step next => Atomic step (fun g => bind (next g) k)
  end.

Declare Scope thread_scope.
Delimit Scope thread_scope with thread.
Notation "x ← y ; z" := (bind y (fun x => z))
  (at level 20, y at level 100, z at level 200, only parsing) : thread_scope.
Notation "x ;; z" := (bind x (fun _ => z))
  (at level 100, z at level 200, only parsing, right associativity)
  : thread_scope.
Local Open Scope thread_scope.

(** [try: body / except ... as e: handler(e)]; a handler that does not
    handle [e] re-raises it by returning [Throw e]. *)
Fixpoint try_except {A : Type} (body : Thread A) (handler : exn -> Thread A)
  : Thread A :=
  match body with
  | Ret a => Ret a
  | Throw e => handler e
  | Atomic step next => Atomic step (fun g => try_except (next g) handler)
  end.

(** One atomic write. *)
Definition modify (f : GUI -> GUI) : Thread unit :=
  Atomic f (fun _ => Ret tt).

(** One atomic read of an attribute. *)
Definition read {A : Type} (f : GUI -> A) : Thread A :=
  Atomic id (fun g => Ret (f g)).

(** A call that leaves the process: it is logged, and returns or raises
    what the service gives. *)
Definition call {A : Type} (e : event) (r : outcome A) : Thread A :=
  Atomic (emit e)
         (fun _ => match r with Returned a => Ret a | Raised x => Throw x end).

(** [xs[i]] *)
Definition item (xs : list string) (i : nat) : Thread string :=
  match xs !! i with
  | Some x => Ret x
  | None => Throw (Exception "list index out of range")
  end.

Definition add_message (msg_type message : string) : Thread unit :=
  modify (emit (Message msg_type message)).

Definition print (line : string) : Thread unit :=
  modify (emit (Print line)).

Definition sleep (ms : N) : Thread unit :=
  modify (emit (Sleep ms)).

(** A schedule gives, for each atomic step of a background thread in turn,
    what the main thread does to the shared object just before that step
    (the composition of the handlers it runs; [id] when it runs none).
    Past the end of the list the main thread does nothing. *)
Definition schedule : Type := list (GUI -> GUI).

Fixpoint run {A : Type} (t : Thread A) (sched : schedule) (g : GUI)
  : GUI * outcome A :=
  match t with
  | Ret a => (g, Returned a)
  | Throw e => (g, Raised e)
  | Atomic step next =>
      let g1 := hd id sched g in
      run (next g1) (tl sched) (step g1)
  end.

(** ** [gemini_client.py] *)

Module GeminiClient.
Section client.
Variable W : World.

Definition fallback : string := "I'm sorry, I couldn't process that request.".

Definition chat_with_gemini (prompt : string) : Thread string :=
  try_except
    (text ← call (Generate prompt) (generate_content W prompt);
     Ret (Py.strip text))
    (fun e =>
       print ("Error generating response: " +:+ exn_str e);;
       Ret fallback).

(** The result is the path of the audio file, or [None]. *)
Definition text_to_speech (text language : string) : Thread (option string) :=
  try_except
    (filename ← call (Synthesize text language) (gTTS_save W text language);
     Ret (Some filename))
    (fun e =>
       print ("Error generating speech: " +:+ exn_str e);;
       Ret None).
End client.
End GeminiClient.

(** [if audio_file: play_audio(audio_file)] for a value that is a path or
    [None]. *)
Definition play_if_any (W : World) (audio_file : option string) : Thread unit :=
  match audio_file with
  | Some f => if Py.truthy f then call (Play f) (play_audio W f) else Ret tt
  | None => Ret tt
  end.

(** [self.gemini_client]: an [AttributeError] when the attribute was never
    set. *)
Definition the_gemini_client (cls : string) : Thread unit :=
  present ← read gemini_client;
  if present then Ret tt
  else Throw (Exception ("'" +:+ cls +:+
                         "' object has no attribute 'gemini_client'")).

(** [self.input_language[i]], [self.output_language[i]] *)
Definition input_language_at (i : nat) : Thread string :=
  xs ← read input_language; item xs i.
Definition output_language_at (i : nat) : Thread string :=
  xs ← read output_language; item xs i.

(** The microphone block shared by the loops: [with sr.Microphone() as
    source: adjust_for_ambient_noise(source); audio = listen(source)], then
    [recognize_google(audio, language=self.input_language[1])]. *)
Definition capture (c : attempt) : Thread string :=
  call Listen (listen c);;
  locale ← input_language_at 1;
  call (Recognize locale) (recognize_google c locale).

(** What one pass of a loop body asks of the loop. *)
Inductive control : Type := NextPass | Break.

(** How a run of a loop over finitely many capture attempts ends: the loop
    was left, or the attempts ran out with the loop still going. *)
Inductive loop_end : Type := Left | StillLooping.

Definition placeholder : string := "Type message".

(** The text of the [NameError] for a variable of an enclosing function
    that a lambda reads while it is not bound (as CPython 3.11 words it). *)
Definition unbound (name : string) : string :=
  "cannot access free variable '" +:+ name +:+
  "' where it is not associated with a value in enclosing scope".

(** ** [gui_app.py] *)

Module GuiApp.
Section app.
Variable W : World.
(** [languages_dict] of the [languages] module:
    language name to [[recognition locale, translation code]], a list of
    two strings. *)
Variable languages_dict : gmap string (string * string).

(** [setup_variables], the widgets as [create_widgets] leaves them, and
    [setup_voice_components] for the given value of
    [os.environ.get('GEMINI_API_KEY')]; the constructors of the recogniser
    and of the client are taken to succeed. *)
Definition init (api_key : option string) : GUI :=
  let has_key := match api_key with Some k => Py.truthy k | None => false end in
  {| input_language := ["English"; "en-US"; "en"];
     output_language := ["English"; "en-US"; "en"];
     current_language := "English";
     conversation_active := false;
     voice_enabled := true;
     gemini_client := has_key;
     input_lang_var := "english";
     output_lang_var := "english";
     text_input := placeholder;
     text_input_fg := "white";
     start_btn := "🎤 Start Conversation";
     status_label := "🎤 Ready";
     after_queue := [];
     loop_user_text := None;
     loop_e := None;
     turn_frames := 0;
     turn_e := None;
     log := [if has_key
             then Message "system" "✅ Voice assistant initialized successfully!"
             else Message "system" "❌ GEMINI_API_KEY not found. Please set your API key."] |}.

Definition process_text_message (message : string) : Thread unit :=
  try_except
    (add_message "user" message;;
     code ← input_language_at 2;
     message_english ←
       (if negb (String.eqb code "en")
        then call (Translate "auto" "en" message)
                  (translate W "auto" "en" message)
        else Ret message);
     the_gemini_client "MultilingualGUI";;
     response ← GeminiClient.chat_with_gemini W message_english;
     code ← output_language_at 2;
     translated_response ←
       (if negb (String.eqb code "en")
        then target ← output_language_at 2;
             call (Translate "en" target response)
                  (translate W "en" target response)
        else Ret response);
     add_message "assistant" translated_response;;
     the_gemini_client "MultilingualGUI";;
     language ← output_language_at 2;
     audio_file ← GeminiClient.text_to_speech W translated_response language;
     play_if_any W audio_file)
    (fun e => add_message "error" ("Error processing message: " +:+ exn_str e)).

(** As [process_text_message], with the display updates handed to the
    main thread and no user message of its own.  The lambda of the [except]
    clause is queued while [e] is bound, and the clause ends, which unbinds
    [e], as soon as it is queued. *)
Definition process_voice_message (message : string) : Thread unit :=
  modify new_turn_frame;;
  try_except
    (code ← input_language_at 2;
     message_english ←
       (if negb (String.eqb code "en")
        then call (Translate "auto" "en" message)
                  (translate W "auto" "en" message)
        else Ret message);
     the_gemini_client "MultilingualGUI";;
     response ← GeminiClient.chat_with_gemini W message_english;
     code ← output_language_at 2;
     translated_response ←
       (if negb (String.eqb code "en")
        then target ← output_language_at 2;
             call (Translate "en" target response)
                  (translate W "en" target response)
        else Ret response);
     modify (after (CbAddMessage "assistant" translated_response));;
     the_gemini_client "MultilingualGUI";;
     language ← output_language_at 2;
     audio_file ← GeminiClient.text_to_speech W translated_response language;
     play_if_any W audio_file)
    (fun e =>
       modify (bind_turn_e (exn_str e));;
       modify (fun g => after (CbProcessingError (turn_frames g)) g);;
       modify unbind_turn_e).

Definition stop_words : list string := ["stop"; "exit"; "quit"; "goodbye"].

(** One pass through the body of [while self.conversation_active].  The
    last clause binds [e] for as long as it runs, that is until the end of
    [time.sleep(1)]. *)
Definition voice_loop_body (c : attempt) : Thread control :=
  try_except
    (user_text ← capture c;
     modify (bind_user_text user_text);;
     if Py.contains stop_words (Py.lower user_text)
     then modify (after CbStopConversation);; Ret Break
     else modify (after CbUserMessage);;
          process_voice_message user_text;;
          Ret NextPass)
    (fun e =>
       match e with
       | WaitTimeoutError _ => Ret NextPass
       | UnknownValueError _ =>
           modify (after (CbAddMessage "error" "Could not understand audio"));;
           Ret NextPass
       | Exception msg =>
           modify (bind_loop_e msg);;
           modify (after CbVoiceError);;
           sleep 1000;;
           modify unbind_loop_e;;
           Ret NextPass
       end).

Fixpoint voice_loop (attempts : list attempt) : Thread loop_end :=
  active ← read conversation_active;
  if active then
    match attempts with
    | [] => Ret StillLooping
    | c :: rest =>
        r ← voice_loop_body c;
        match r with
        | Break => Ret Left
        | NextPass => voice_loop rest
        end
    end
  else Ret Left.

(** *** Handlers run by the Tk main thread *)

Definition send_text_message (g : GUI) : GUI :=
  let message := Py.strip (text_input g) in
  if Py.truthy message && negb (String.eqb message placeholder)
  then emit (Spawn (TaskProcessText message))
         (set_text_input_fg "#808080" (set_text_input placeholder g))
  else g.

Definition start_conversation (g : GUI) : GUI :=
  if negb (gemini_client g) then
    emit (Dialog "showerror" "Error"
                 "Assistant not initialized. Please check your API key.") g
  else if negb (conversation_active g) then
    emit (Spawn TaskVoiceLoop)
      (emit (Message "system" "🎤 Voice conversation started. Speak now...")
         (set_labels "🎤 Listening..." "🎤 Listening..."
            (set_conversation_active true g)))
  else g.

Definition stop_conversation (g : GUI) : GUI :=
  emit (Message "system" "🛑 Voice conversation stopped.")
    (set_labels "🎤 Start Conversation" "Ready"
       (set_conversation_active false g)).

Definition update_input_language (g : GUI) : GUI :=
  let lang_name := input_lang_var g in
  match languages_dict !! lang_name with
  | Some (locale, code) =>
      set_input_language [Py.title lang_name; locale; code] g
  | None => g
  end.

Definition update_output_language (g : GUI) : GUI :=
  let lang_name := output_lang_var g in
  match languages_dict !! lang_name with
  | Some (locale, code) =>
      set_output_language [Py.title lang_name; locale; code] g
  | None => g
  end.

(** The user picks a name in a combobox: the variable is set and the
    [<<ComboboxSelected>>] binding runs. *)
Definition select_input_language (name : string) (g : GUI) : GUI :=
  update_input_language (set_lang_vars name (output_lang_var g) g).
Definition select_output_language (name : string) (g : GUI) : GUI :=
  update_output_language (set_lang_vars (input_lang_var g) name g).

Definition apply_language_settings (g : GUI) : GUI :=
  match input_language g !! 0, output_language g !! 0 with
  | Some i, Some o =>
      let current := i +:+ " → " +:+ o in
      emit (Dialog "showinfo" "Success" "Language settings applied successfully!")
        (emit (Message "system" ("✅ Languages updated: " +:+ current))
           (set_current_language current g))
  | _, _ => emit (CallbackException "list index out of range") g
  end.

(** The main thread runs what was queued with [root.after(0, ...)].  A
    lambda that reads a variable that is not bound raises [NameError]; Tk
    reports the exception of a callback on the console and goes on, so
    nothing is shown in the window. *)
Definition run_callback (g : GUI) (cb : callback) : GUI :=
  match cb with
  | CbStopConversation => stop_conversation g
  | CbAddMessage msg_type message => emit (Message msg_type message) g
  | CbUserMessage =>
      match loop_user_text g with
      | Some user_text => emit (Message "user" user_text) g
      | None => emit (CallbackException (unbound "user_text")) g
      end
  | CbVoiceError =>
      match loop_e g with
      | Some e => emit (Message "error" ("Voice error: " +:+ e)) g
      | None => emit (CallbackException (unbound "e")) g
      end
  | CbProcessingError frame =>
      match (if Nat.eqb frame (turn_frames g) then turn_e g else None) with
      | Some e => emit (Message "error" ("Processing error: " +:+ e)) g
      | None => emit (CallbackException (unbound "e")) g
      end
  end.

Definition run_after_queue (g : GUI) : GUI :=
  fold_left run_callback (after_queue g) (set_after_queue [] g).

(** The entry box gets the focus ([<FocusIn>]) and loses it ([<FocusOut>]). *)
Definition clear_placeholder (g : GUI) : GUI :=
  if String.eqb (text_input g) placeholder
  then set_text_input_fg "white" (set_text_input "" g)
  else g.

Definition add_placeholder (g : GUI) : GUI :=
  if negb (Py.truthy (text_input g))
  then set_text_input_fg "#808080" (set_text_input placeholder g)
  else g.
End app.
End GuiApp.

(** ** [voice_assistant.py] *)

Module VoiceAssistant.

(** What the guarded imports at the top of the module found. *)
Record Imports : Type := {
  SPEECH_AVAILABLE : bool;
  PYAUDIO_AVAILABLE : bool;
  TRANSLATOR_AVAILABLE : bool;
  GEMINI_AVAILABLE : bool;
  AUDIO_PLAYBACK_AVAILABLE : bool;
  (** [languages_dict] of the [languages] module, when it could be imported *)
  languages_import : option (gmap string (string * string));
}.

Definition fallback_languages_dict : gmap string (string * string) :=
  list_to_map
    [("english", ("en-US", "en")); ("spanish", ("es-ES", "es"));
     ("french", ("fr-FR", "fr")); ("german", ("de-DE", "de"));
     ("italian", ("it-IT", "it")); ("portuguese", ("pt-PT", "pt"));
     ("russian", ("ru-RU", "ru")); ("chinese", ("zh-CN", "zh"));
     ("japanese", ("ja-JP", "ja")); ("korean", ("ko-KR", "ko"));
     ("hindi", ("hi-IN", "hi")); ("arabic", ("ar-SA", "ar"))].

Section app.
Variable W : World.
Variable I : Imports.

Definition LANGUAGES_AVAILABLE : bool :=
  match languages_import I with Some _ => true | None => false end.

Definition languages_dict : gmap string (string * string) :=
  default fallback_languages_dict (languages_import I).

Definition missing_deps : list string :=
  (if SPEECH_AVAILABLE I then [] else ["speech_recognition"]) ++
  (if PYAUDIO_AVAILABLE I then [] else ["pyaudio"]) ++
  (if TRANSLATOR_AVAILABLE I then [] else ["deep_translator"]) ++
  (if GEMINI_AVAILABLE I then [] else ["gemini_client"]) ++
  (if AUDIO_PLAYBACK_AVAILABLE I then [] else ["audio playback"]).

(** [setup_variables], the widgets as [create_widgets] leaves them,
    [setup_voice_components] for the given value of
    [os.environ.get('GEMINI_API_KEY')], and [check_dependencies]. *)
Definition init (api_key : option string) : GUI :=
  let has_key := match api_key with Some k => Py.truthy k | None => false end in
  let voice := SPEECH_AVAILABLE I && PYAUDIO_AVAILABLE I in
  {| input_language := ["English"; "en-US"; "en"];
     output_language := ["English"; "en-US"; "en"];
     current_language := "English";
     conversation_active := false;
     voice_enabled := voice;
     gemini_client := has_key && GEMINI_AVAILABLE I;
     input_lang_var := "english";
     output_lang_var := "english";
     text_input := placeholder;
     text_input_fg := "white";
     start_btn := if voice then "🎤 Start Conversation" else "Voice Unavailable";
     status_label := if voice then "🎤 Ready" else "⌨️ Text Only";
     after_queue := [];
     loop_user_text := None;
     loop_e := None;
     turn_frames := 0;
     turn_e := None;
     log :=
       (if voice then [Message "system" "✅ Voice recognition initialized"]
        else []) ++
       (if negb has_key
        then [Message "system" "❌ GEMINI_API_KEY not found. Please set your API key."]
        else if GEMINI_AVAILABLE I
        then [Message "system" "✅ AI assistant initialized successfully!"]
        else [Message "error" "❌ Gemini client not available"]) ++
       (match missing_deps with
        | [] => []
        | _ =>
            Message "system"
                    ("⚠️ Missing dependencies: " +:+ String.concat ", " missing_deps)
            :: (if voice then []
                else [Message "system" "🔇 Voice input disabled. Text input only."])
        end) |}.

Definition process_text_message (message : string) : Thread unit :=
  try_except
    (add_message "user" message;;
     if negb (GEMINI_AVAILABLE I) then
       add_message "error" "AI assistant not available"
     else
       message_english ←
         (if TRANSLATOR_AVAILABLE I then
            code ← input_language_at 2;
            if negb (String.eqb code "en")
            then call (Translate "auto" "en" message)
                      (translate W "auto" "en" message)
            else Ret message
          else Ret message);
       the_gemini_client "ImprovedMultilingualGUI";;
       response ← GeminiClient.chat_with_gemini W message_english;
       response_translated ←
         (if TRANSLATOR_AVAILABLE I then
            code ← output_language_at 2;
            if negb (String.eqb code "en")
            then target ← output_language_at 2;
                 call (Translate "en" target response)
                      (translate W "en" target response)
            else Ret response
          else Ret response);
       add_message "assistant" response_translated;;
       if AUDIO_PLAYBACK_AVAILABLE I
       then modify (emit (Spawn (TaskPlayResponseAudio response_translated)))
       else Ret tt)
    (fun e => add_message "error" ("Failed to process message: " +:+ exn_str e)).

Definition play_response_audio (text : string) : Thread unit :=
  try_except
    (if AUDIO_PLAYBACK_AVAILABLE I then
       language ← output_language_at 2;
       call (PlayText text language) (play_audio_text W text language)
     else Ret tt)
    (fun e => print ("Audio playback failed: " +:+ exn_str e)).

(** The result is [True], [False], or [None] when the body falls off its
    end. *)
Definition listen_for_voice (c : attempt) : Thread (option bool) :=
  try_except
    (text ← capture c;
     if Py.truthy (Py.strip text)
     then process_text_message text;; Ret (Some true)
     else Ret None)
    (fun e =>
       match e with
       | WaitTimeoutError _ => Ret (Some true)
       | UnknownValueError _ =>
           add_message "system" "Could not understand audio, please try again";;
           Ret (Some true)
       | Exception msg =>
           add_message "error" ("Voice recognition error: " +:+ msg);;
           Ret (Some false)
       end).

(** [while self.conversation_active: if self.listen_for_voice(): ... else: break] *)
Fixpoint listening (attempts : list attempt) : Thread loop_end :=
  active ← read conversation_active;
  if active then
    match attempts with
    | [] => Ret StillLooping
    | c :: rest =>
        r ← listen_for_voice c;
        match r with
        | Some true => sleep 500;; listening rest
        | _ => Ret Left
        end
    end
  else Ret Left.

(** The [finally] block runs when the loop has been left, also after the
    [except] clause. *)
Definition voice_conversation_loop (attempts : list attempt) : Thread loop_end :=
  r ← try_except (listening attempts)
        (fun e =>
           add_message "error" ("Conversation loop error: " +:+ exn_str e);;
           Ret Left);
  match r with
  | StillLooping => Ret StillLooping
  | Left =>
      modify (set_conversation_active false);;
      modify (set_labels "🎤 Start Conversation" "🎤 Ready");;
      Ret Left
  end.

(** *** Handlers run by the Tk main thread *)

Definition send_text_message (g : GUI) : GUI :=
  let message := Py.strip (text_input g) in
  if Py.truthy message && negb (String.eqb message placeholder)
  then emit (Spawn (TaskProcessText message))
         (set_text_input_fg "#808080" (set_text_input placeholder g))
  else g.

Definition start_conversation (g : GUI) : GUI :=
  if negb (voice_enabled g) then
    emit (Dialog "showwarning" "Voice Unavailable"
                 "Voice input is not available.
Please install PyAudio and speech_recognition.") g
  else if conversation_active g then
    emit (Dialog "showinfo" "Already Active" "Conversation is already active!") g
  else
    emit (Spawn TaskVoiceLoop)
      (set_labels "🎤 Listening..." "🎤 Listening"
         (set_conversation_active true g)).

Definition stop_conversation (g : GUI) : GUI :=
  emit (Message "system" "Conversation stopped")
    (set_labels "🎤 Start Conversation" "🎤 Ready"
       (set_conversation_active false g)).

Definition update_input_language (g : GUI) : GUI :=
  let selected := input_lang_var g in
  match languages_dict !! selected with
  | Some (locale, code) =>
      set_input_language [Py.title selected; locale; code] g
  | None => g
  end.

Definition update_output_language (g : GUI) : GUI :=
  let selected := output_lang_var g in
  match languages_dict !! selected with
  | Some (locale, code) =>
      set_output_language [Py.title selected; locale; code] g
  | None => g
  end.

Definition select_input_language (name : string) (g : GUI) : GUI :=
  update_input_language (set_lang_vars name (output_lang_var g) g).
Definition select_output_language (name : string) (g : GUI) : GUI :=
  update_output_language (set_lang_vars (input_lang_var g) name g).

Definition apply_language_settings (g : GUI) : GUI :=
  let g1 := update_output_language (update_input_language g) in
  match input_language g1 !! 0, output_language g1 !! 0 with
  | Some i, Some o =>
      emit (Message "system"
              ("Language settings applied: Input '" +:+ i +:+
               "', Output '" +:+ o +:+ "'"))
        (set_current_language (i +:+ " → " +:+ o) g1)
  | _, _ => emit (CallbackException "list index out of range") g1
  end.

Definition clear_placeholder (g : GUI) : GUI :=
  if String.eqb (text_input g) placeholder
  then set_text_input_fg "white" (set_text_input "" g)
  else g.

Definition add_placeholder (g : GUI) : GUI :=
  if negb (Py.truthy (text_input g))
  then set_text_input_fg "#808080" (set_text_input placeholder g)
  else g.

(** The thread that [test_microphone] starts.  [recognize_google] is
    called without a language, which is "en-US" in [speech_recognition]. *)
Definition test_mic_thread (c : attempt) : Thread unit :=
  try_except
    (add_message "system" "🎤 Testing microphone... Speak now!";;
     call Listen (listen c);;
     text ← call (Recognize "en-US") (recognize_google c "en-US");
     add_message "system"
       ("✅ Microphone test successful! Heard: '" +:+ text +:+ "'"))
    (fun e =>
       match e with
       | WaitTimeoutError _ =>
           add_message "error" "❌ Microphone test timeout - no speech detected"
       | UnknownValueError _ =>
           add_message "error" "❌ Microphone working but speech not understood"
       | Exception msg =>
           add_message "error" ("❌ Microphone test failed: " +:+ msg)
       end).
End app.
End VoiceAssistant.

(** ** [main.py] *)

Module Main.

(** What [main] does, in order. *)
Inductive step : Type :=
| TkRoot                               (* [tk.Tk()] *)
| Withdraw                             (* [root.withdraw()] *)
| ShowError (title text : string)      (* [messagebox.showerror] *)
| Destroy                              (* [root.destroy()] *)
| NewApp (g : GUI)                     (* [MultilingualGUI(root)] *)
| Mainloop                             (* [root.mainloop()] *)
| PrintLine (line : string).

(** How [root.mainloop()] ends. *)
Inductive mainloop_end : Type :=
| WindowClosed
| KeyboardInterrupt
| Failed (e : exn).

Definition configuration_error_text : string :=
  "GEMINI_API_KEY not found!

Please add your Google Gemini API key to your .env file:
GEMINI_API_KEY=your_api_key_here

Get your API key from: https://makersuite.google.com/".

(** [not os.environ.get('GEMINI_API_KEY')]: the variable is unset or empty. *)
Definition key_missing (api_key : option string) : bool :=
  match api_key with
  | Some k => negb (Py.truthy k)
  | None => true
  end.

(** [environ] is [os.environ] after [load_dotenv()]. *)
Definition main (environ : gmap string string) (loop : mainloop_end)
  : list step :=
  let api_key := environ !! "GEMINI_API_KEY" in
  if key_missing api_key then
    [TkRoot; Withdraw;
     ShowError "Configuration Error" configuration_error_text;
     Destroy]
  else
    [TkRoot; NewApp (GuiApp.init api_key); Mainloop] ++
    match loop with
    | WindowClosed => []
    | KeyboardInterrupt => [PrintLine "
👋 Application closed by user."]
    | Failed e => [PrintLine ("❌ Application error: " +:+ exn_str e)]
    end.

End Main.

(** ** Notions used in the statements *)

(** The events a run added to the log. *)
Definition new_events (g g' : GUI) : list event :=
  drop (length (log g)) (log g').

(** A run with the main thread idle. *)
Definition exec {A : Type} (t : Thread A) (g : GUI) : GUI * outcome A :=
  run t [] g.

#[export] Instance task_eq_dec : EqDecision task.
Proof. solve_decision. Defined.
#[export] Instance callback_eq_dec : EqDecision callback.
Proof. solve_decision. Defined.
#[export] Instance event_eq_dec : EqDecision event.
Proof. solve_decision. Defined.

(** The events of one turn run from [g] with the main thread idle. *)
Definition turn_events (t : Thread unit) (g : GUI) : list event :=
  new_events g (fst (exec t g)).

(** A world in which every service answers, for concrete runs. *)
Definition echo_world : World :=
  {| translate := fun _ target text => Returned ("[" +:+ target +:+ "] " +:+ text);
     generate_content := fun prompt => Returned ("You said: " +:+ prompt);
     gTTS_save := fun _ _ => Returned "/tmp/reply.mp3";
     play_audio := fun _ => Returned tt;
     play_audio_text := fun _ _ => Returned tt |}.

(** A world whose speech synthesis is down. *)
Definition mute_world : World :=
  {| translate := translate echo_world;
     generate_content := generate_content echo_world;
     gTTS_save := fun _ _ => Raised (Exception "gTTS unreachable");
     play_audio := play_audio echo_world;
     play_audio_text := play_audio_text echo_world |}.

Definition all_imports : VoiceAssistant.Imports :=
  {| VoiceAssistant.SPEECH_AVAILABLE := true;
     VoiceAssistant.PYAUDIO_AVAILABLE := true;
     VoiceAssistant.TRANSLATOR_AVAILABLE := true;
     VoiceAssistant.GEMINI_AVAILABLE := true;
     VoiceAssistant.AUDIO_PLAYBACK_AVAILABLE := true;
     VoiceAssistant.languages_import := None |}.

(** A conversation that has just been started, in each class. *)
Definition gui_app_listening : GUI :=
  GuiApp.start_conversation (GuiApp.init (Some "key")).
Definition voice_assistant_listening : GUI :=
  VoiceAssistant.start_conversation (VoiceAssistant.init all_imports (Some "key")).

Fixpoint all_space (s : string) : bool :=
  match s with
  | EmptyString => true
  | String c r => Py.isspace c && all_space r
  end.


(** What a turn reads from the shared object: the two profiles, and whether
    the client exists. *)
Definition profile_eq (g g' : GUI) : Prop :=
  input_language g = input_language g'
  /\ output_language g = output_language g'
  /\ gemini_client g = gemini_client g'.

(** Log entries that handlers of the main thread make; a turn makes all the
    others. *)
Definition main_thread_event (e : event) : bool :=
  match e with
  | Message msg_type _ => String.eqb msg_type "system"
  | Dialog _ _ _ | Spawn _ | CallbackException _ => true
  | _ => false
  end.

Definition turn_event (e : event) : bool := negb (main_thread_event e).

(** A handler that leaves the profiles and the client alone and only adds
    entries of its own to the log. *)
Definition quiet (h : GUI -> GUI) : Prop :=
  forall g,
    profile_eq (h g) g
    /\ exists evs, log (h g) = log g ++ evs
                   /\ Forall (fun e => main_thread_event e = true) evs.

(** A step that leaves the profiles and the client alone and adds the same
    entries to the log whatever the state. *)
Definition appends (step : GUI -> GUI) : Prop :=
  exists evs, forall g, profile_eq (step g) g /\ log (step g) = log g ++ evs.

(** A thread all of whose steps are such, and which decides how to go on
    from the profiles and the client only. *)
Fixpoint reads_profiles_only {A : Type} (t : Thread A) : Prop :=
  match t with
  | Ret _ | Throw _ => True
  | Atomic step next =>
      appends step
      /\ (forall g g', profile_eq g g' -> next g = next g')
      /\ (forall g, reads_profiles_only (next g))
  end.

(** ** Notions used in the further properties *)

(** What a user does at the window of [gui_app.py] and of
    [voice_assistant.py]: the buttons, the entry box, the two language
    pickers; [Idle] is the event loop running what was queued for it. *)
Inductive action : Type :=
| ClickStart
| ClickStop
| ClickSend
| ClickApply
| TypeText (text : string)
| FocusIn
| FocusOut
| PickInput (name : string)
| PickOutput (name : string)
| Idle.

Definition gui_app_handle (languages_dict : gmap string (string * string))
    (a : action) (g : GUI) : GUI :=
  match a with
  | ClickStart => GuiApp.start_conversation g
  | ClickStop => GuiApp.stop_conversation g
  | ClickSend => GuiApp.send_text_message g
  | ClickApply => GuiApp.apply_language_settings g
  | TypeText text => set_text_input text g
  | FocusIn => GuiApp.clear_placeholder g
  | FocusOut => GuiApp.add_placeholder g
  | PickInput name => GuiApp.select_input_language languages_dict name g
  | PickOutput name => GuiApp.select_output_language languages_dict name g
  | Idle => GuiApp.run_after_queue g
  end.

(** Nothing is ever queued for the main thread in [voice_assistant.py]. *)
Definition voice_assistant_handle (I : VoiceAssistant.Imports)
    (a : action) (g : GUI) : GUI :=
  match a with
  | ClickStart => VoiceAssistant.start_conversation g
  | ClickStop => VoiceAssistant.stop_conversation g
  | ClickSend => VoiceAssistant.send_text_message g
  | ClickApply => VoiceAssistant.apply_language_settings I g
  | TypeText text => set_text_input text g
  | FocusIn => VoiceAssistant.clear_placeholder g
  | FocusOut => VoiceAssistant.add_placeholder g
  | PickInput name => VoiceAssistant.select_input_language I name g
  | PickOutput name => VoiceAssistant.select_output_language I name g
  | Idle => g
  end.

(** The state after a sequence of actions. *)
Definition after_actions (handle : action -> GUI -> GUI)
    (actions : list action) (g : GUI) : GUI :=
  fold_left (fun g a => handle a g) actions g.

(** Every atomic step of a thread is one of the steps [Q]. *)
Fixpoint all_steps {A : Type} (Q : (GUI -> GUI) -> Prop) (t : Thread A) : Prop :=
  match t with
  | Ret _ | Throw _ => True
  | Atomic step next => Q step /\ (forall g, all_steps Q (next g))
  end.

(** A step that reads, or adds one entry to the log. *)
Definition logs_only (step : GUI -> GUI) : Prop :=
  step = id \/ exists e, step = emit e.

(** Every attribute is the same; the log and the queue of the main thread
    may differ. *)
Definition same_widgets (g g' : GUI) : Prop :=
  input_language g' = input_language g
  /\ output_language g' = output_language g
  /\ current_language g' = current_language g
  /\ conversation_active g' = conversation_active g
  /\ voice_enabled g' = voice_enabled g
  /\ gemini_client g' = gemini_client g
  /\ input_lang_var g' = input_lang_var g
  /\ output_lang_var g' = output_lang_var g
  /\ text_input g' = text_input g
  /\ text_input_fg g' = text_input_fg g
  /\ start_btn g' = start_btn g
  /\ status_label g' = status_label g.

(** A step that leaves every attribute as it is, and only adds to the log
    and to the queue of the main thread. *)
Definition leaves_the_window (step : GUI -> GUI) : Prop :=
  forall g,
    same_widgets g (step g)
    /\ (exists cbs, after_queue (step g) = after_queue g ++ cbs)
    /\ exists evs, log (step g) = log g ++ evs.

(** A world in which every service is down. *)
Definition dead_world : World :=
  {| translate := fun _ _ _ => Raised (Exception "no route to host");
     generate_content := fun _ => Raised (Exception "no route to host");
     gTTS_save := fun _ _ => Raised (Exception "no route to host");
     play_audio := fun _ => Raised (Exception "no audio device");
     play_audio_text := fun _ _ => Raised (Exception "no audio device") |}.

(** A world in which only the translation service is down. *)
Definition translator_down_world : World :=
  {| translate := translate dead_world;
     generate_content := generate_content echo_world;
     gTTS_save := gTTS_save echo_world;
     play_audio := play_audio echo_world;
     play_audio_text := play_audio_text echo_world |}.

(** A world in which only the playback is down. *)
Definition speaker_down_world : World :=
  {| translate := translate echo_world;
     generate_content := generate_content echo_world;
     gTTS_save := gTTS_save echo_world;
     play_audio := play_audio dead_world;
     play_audio_text := play_audio_text dead_world |}.

(** [pyaudio] could not be imported; everything else could. *)
Definition no_pyaudio_imports : VoiceAssistant.Imports :=
  {| VoiceAssistant.SPEECH_AVAILABLE := true;
     VoiceAssistant.PYAUDIO_AVAILABLE := false;
     VoiceAssistant.TRANSLATOR_AVAILABLE := true;
     VoiceAssistant.GEMINI_AVAILABLE := true;
     VoiceAssistant.AUDIO_PLAYBACK_AVAILABLE := true;
     VoiceAssistant.languages_import := None |}.

(** English in, French out, in [gui_app.py]. *)
Definition english_to_french : GUI :=
  GuiApp.select_output_language VoiceAssistant.fallback_languages_dict "french"
    (GuiApp.init (Some "key")).

(** A Spanish speaker who wants French answers, in [gui_app.py]. *)
Definition spanish_to_french : GUI :=
  GuiApp.select_output_language VoiceAssistant.fallback_languages_dict "french"
    (GuiApp.select_input_language VoiceAssistant.fallback_languages_dict "spanish"
       (GuiApp.init (Some "key"))).

(** * Properties *)

Example strip_ex : Py.strip "  Hola  " = "Hola".
Proof. reflexivity. Qed.

Example lower_ex : Py.lower "QuIT" = "quit".
Proof. reflexivity. Qed.

Example title_ex : Py.title "english" = "English".
Proof. reflexivity. Qed.

(** ** Running threads *)

Lemma new_events_app (g g' : GUI) (evs : list event) :
  log g' = log g ++ evs -> new_events g g' = evs.
Proof.
  unfold new_events. intros ->. by rewrite drop_app_length.
Qed.

Lemma new_events_refl (g : GUI) : new_events g g = [].
Proof. apply new_events_app. by rewrite app_nil_r. Qed.

Lemma exec_bind {A B : Type} (t : Thread A) (k : A -> Thread B) (g : GUI) :
  exec (bind t k) g =
  match exec t g with
  | (g', Returned a) => exec (k a) g'
  | (g', Raised e) => (g', Raised e)
  end.
Proof.
  unfold exec. revert g.
  induction t as [a | e | step next IH]; intros g; simpl; auto.
Qed.

Lemma exec_try_except {A : Type} (t : Thread A) (h : exn -> Thread A) (g : GUI) :
  exec (try_except t h) g =
  match exec t g with
  | (g', Returned a) => (g', Returned a)
  | (g', Raised e) => exec (h e) g'
  end.
Proof.
  unfold exec. revert g.
  induction t as [a | e | step next IH]; intros g; simpl; auto.
Qed.

Lemma exec_ret {A : Type} (a : A) (g : GUI) : exec (Ret a) g = (g, Returned a).
Proof. reflexivity. Qed.

Lemma exec_throw {A : Type} (e : exn) (g : GUI) :
  exec (Throw e : Thread A) g = (g, Raised e).
Proof. reflexivity. Qed.

Lemma exec_read {A : Type} (f : GUI -> A) (g : GUI) :
  exec (read f) g = (g, Returned (f g)).
Proof. reflexivity. Qed.

Lemma exec_modify (f : GUI -> GUI) (g : GUI) :
  exec (modify f) g = (f g, Returned tt).
Proof. reflexivity. Qed.

Lemma exec_call {A : Type} (e : event) (r : outcome A) (g : GUI) :
  exec (call e r) g = (emit e g, r).
Proof. unfold exec, call. simpl. by destruct r. Qed.


(** Closes [x ∉ [a; b; ...]] when [x] differs from every entry by its
    constructor or an argument. *)
Ltac not_in_list :=
  rewrite ?elem_of_app, ?elem_of_cons, ?elem_of_nil; intuition congruence.

(** ** C8: a missing API key is reported before anything starts *)

(** C8. When [GEMINI_API_KEY] is unset (or empty) in the environment,
    [main] shows the configuration error once on a hidden root window,
    destroys it and returns: no application window is created, the event
    loop is never entered and nothing is printed, whatever the event loop
    would have done. *)
Theorem missing_api_key_blocks_startup (environ : gmap string string)
    (loop : Main.mainloop_end) :
  environ !! "GEMINI_API_KEY" = None \/ environ !! "GEMINI_API_KEY" = Some "" ->
  let steps := Main.main environ loop in
  (exists text,
      steps = [Main.TkRoot; Main.Withdraw;
               Main.ShowError "Configuration Error" text; Main.Destroy])
  /\ (forall g, Main.NewApp g ∉ steps)
  /\ (Main.Mainloop ∉ steps)
  /\ (forall line, Main.PrintLine line ∉ steps).
Proof.
  intros Hkey steps.
  assert (Hsteps : steps =
            [Main.TkRoot; Main.Withdraw;
             Main.ShowError "Configuration Error" Main.configuration_error_text;
             Main.Destroy]).
  { unfold steps, Main.main. by destruct Hkey as [-> | ->]. }
  rewrite Hsteps. split; [by eexists |].
  repeat split; intros; not_in_list.
Qed.

Lemma missing_api_key_blocks_startup_witness :
  exists text,
    Main.main ∅ Main.WindowClosed =
    [Main.TkRoot; Main.Withdraw;
     Main.ShowError "Configuration Error" text; Main.Destroy].
Proof.
  apply (missing_api_key_blocks_startup ∅ Main.WindowClosed).
  left. reflexivity.
Defined.

(** With a key the application window is created and the event loop runs. *)
Lemma api_key_present_starts_app (environ : gmap string string)
    (loop : Main.mainloop_end) (key : string) :
  environ !! "GEMINI_API_KEY" = Some key -> key <> "" ->
  exists rest,
    Main.main environ loop =
    Main.TkRoot :: Main.NewApp (GuiApp.init (Some key)) :: Main.Mainloop :: rest.
Proof.
  intros Hkey Hne. unfold Main.main. rewrite Hkey.
  destruct key as [| c key]; [done |]. simpl. by eexists.
Qed.

(** ** C10: what the send button lets through *)

Lemma strip_all_space (s : string) : all_space s = true -> Py.strip s = "".
Proof.
  unfold Py.strip. induction s as [| c r IH]; simpl; [done |].
  intros [Hc Hr]%andb_prop. rewrite Hc. auto.
Qed.

(** C10. With [message] the trimmed content of the entry box:
    when [message] is neither empty nor the placeholder, [send_text_message]
    resets the box (the placeholder, in grey) and starts one turn on
    [message]; when it is empty or the
    placeholder, and in particular when the box holds only white space,
    nothing happens at all (no thread, no log entry, no change).  Both
    classes behave the same. *)
Theorem send_text_message_gate (g : GUI) :
  let message := Py.strip (text_input g) in
  (message <> "" -> message <> "Type message" ->
   GuiApp.send_text_message g =
     emit (Spawn (TaskProcessText message))
       (set_text_input_fg "#808080" (set_text_input "Type message" g))
   /\ VoiceAssistant.send_text_message g =
     emit (Spawn (TaskProcessText message))
       (set_text_input_fg "#808080" (set_text_input "Type message" g)))
  /\ (message = "" \/ message = "Type message" ->
      GuiApp.send_text_message g = g /\ VoiceAssistant.send_text_message g = g)
  /\ (all_space (text_input g) = true ->
      GuiApp.send_text_message g = g /\ VoiceAssistant.send_text_message g = g).
Proof.
  intros message.
  assert (Hempty : message = "" ->
            GuiApp.send_text_message g = g /\ VoiceAssistant.send_text_message g = g).
  { unfold GuiApp.send_text_message, VoiceAssistant.send_text_message.
    fold message. by intros ->. }
  split; [| split].
  - intros Hne Hph.
    unfold GuiApp.send_text_message, VoiceAssistant.send_text_message.
    fold message.
    destruct message as [| c r] eqn:E; [done |].
    apply String.eqb_neq in Hph. unfold placeholder. simpl Py.truthy.
    by rewrite Hph.
  - intros [Hm | Hm]; [by apply Hempty |].
    unfold GuiApp.send_text_message, VoiceAssistant.send_text_message.
    fold message. by rewrite Hm.
  - intros Hsp. apply Hempty. by apply strip_all_space.
Qed.

(** ** C7: a start request while a conversation is active *)

(** In [gui_app.py] a second start request is ignored without any notice. *)
Lemma gui_app_duplicate_start_is_silent :
  let g := GuiApp.start_conversation (GuiApp.init (Some "key")) in
  conversation_active g = true
  /\ new_events g (GuiApp.start_conversation g) = [].
Proof. by vm_compute. Qed.

(** C7, amended. A start request while a conversation is active spawns no
    thread and leaves the conversation active, in both classes.
    [voice_assistant.py] (with voice input enabled) answers with the
    "Already Active" dialog and changes nothing else; [gui_app.py] (with the
    assistant initialised) ignores the request: the object is left exactly
    as it was, and no notice is shown. *)
Theorem duplicate_start_spawns_nothing (g : GUI) :
  conversation_active g = true ->
  (voice_enabled g = true ->
   VoiceAssistant.start_conversation g =
     emit (Dialog "showinfo" "Already Active" "Conversation is already active!") g)
  /\ (gemini_client g = true -> GuiApp.start_conversation g = g)
  /\ (forall t, Spawn t ∉ new_events g (VoiceAssistant.start_conversation g))
  /\ (forall t, Spawn t ∉ new_events g (GuiApp.start_conversation g))
  /\ conversation_active (VoiceAssistant.start_conversation g) = true
  /\ conversation_active (GuiApp.start_conversation g) = true.
Proof.
  intros Hact.
  unfold VoiceAssistant.start_conversation, GuiApp.start_conversation.
  rewrite Hact.
  repeat split.
  - by intros ->.
  - by intros ->.
  - intros t. destruct (voice_enabled g); simpl;
      (erewrite new_events_app; [| reflexivity]); not_in_list.
  - intros t. destruct (gemini_client g); simpl.
    + rewrite new_events_refl. apply not_elem_of_nil.
    + (erewrite new_events_app; [| reflexivity]). not_in_list.
  - by destruct (voice_enabled g).
  - by destruct (gemini_client g).
Qed.

Lemma duplicate_start_spawns_nothing_witness :
  GuiApp.start_conversation (GuiApp.start_conversation (GuiApp.init (Some "key")))
  = GuiApp.start_conversation (GuiApp.init (Some "key")).
Proof.
  apply (duplicate_start_spawns_nothing
           (GuiApp.start_conversation (GuiApp.init (Some "key"))));
    reflexivity.
Defined.

(** ** The capture step and the loops *)

Lemma exec_capture_heard (c : attempt) (g : GUI) (locale text : string) :
  input_language g !! 1 = Some locale ->
  listen c = Returned tt ->
  recognize_google c locale = Returned text ->
  exec (capture c) g = (emit (Recognize locale) (emit Listen g), Returned text).
Proof.
  intros Hl Hc Hr. unfold capture, input_language_at, item.
  rewrite exec_bind, exec_call, Hc, !exec_bind, exec_read. simpl.
  rewrite Hl. by rewrite exec_ret, exec_call, Hr.
Qed.

(** A turn started from the voice loop always returns. *)
Lemma process_voice_message_returns (W : World) (message : string) (g : GUI) :
  snd (exec (GuiApp.process_voice_message W message) g) = Returned tt.
Proof.
  unfold GuiApp.process_voice_message.
  rewrite exec_bind, exec_modify, exec_try_except.
  destruct (exec _ (new_turn_frame g)) as [g' [[] | e]]; reflexivity.
Qed.

Lemma process_text_message_returns (W : World) (I : VoiceAssistant.Imports)
    (message : string) (g : GUI) :
  snd (exec (VoiceAssistant.process_text_message W I message) g) = Returned tt.
Proof.
  unfold VoiceAssistant.process_text_message. rewrite exec_try_except.
  destruct (exec _ g) as [g' [[] | e]]; reflexivity.
Qed.

Lemma voice_loop_cons (W : World) (c : attempt) (rest : list attempt) (g : GUI) :
  conversation_active g = true ->
  exec (GuiApp.voice_loop W (c :: rest)) g =
  match exec (GuiApp.voice_loop_body W c) g with
  | (g', Returned Break) => (g', Returned Left)
  | (g', Returned NextPass) => exec (GuiApp.voice_loop W rest) g'
  | (g', Raised e) => (g', Raised e)
  end.
Proof.
  intros Hact. cbn [GuiApp.voice_loop].
  rewrite exec_bind, exec_read, Hact, exec_bind.
  destruct (exec (GuiApp.voice_loop_body W c) g) as [g' [[] | e]]; reflexivity.
Qed.

Lemma listening_cons (W : World) (I : VoiceAssistant.Imports) (c : attempt)
    (rest : list attempt) (g : GUI) :
  conversation_active g = true ->
  exec (VoiceAssistant.listening W I (c :: rest)) g =
  match exec (VoiceAssistant.listen_for_voice W I c) g with
  | (g', Returned (Some true)) =>
      exec (VoiceAssistant.listening W I rest) (emit (Sleep 500) g')
  | (g', Returned _) => (g', Returned Left)
  | (g', Raised e) => (g', Raised e)
  end.
Proof.
  intros Hact. cbn [VoiceAssistant.listening].
  rewrite exec_bind, exec_read, Hact, exec_bind.
  destruct (exec (VoiceAssistant.listen_for_voice W I c) g)
    as [g' [[[] |] | e]]; reflexivity.
Qed.

Lemma contains_spec (xs : list string) (x : string) :
  Py.contains xs x = true <-> x ∈ xs.
Proof.
  unfold Py.contains. rewrite existsb_exists, list_elem_of_In. split.
  - intros (y & Hy & Heq). apply String.eqb_eq in Heq. by subst.
  - intros Hx. exists x. split; [done | apply String.eqb_refl].
Qed.

Lemma run_after_queue_stops (g : GUI) :
  conversation_active (GuiApp.run_after_queue (after CbStopConversation g)) = false.
Proof.
  unfold GuiApp.run_after_queue, after. simpl. by rewrite fold_left_app.
Qed.

(** ** C1: stop words *)

(** In [gui_app.py] the utterance is lowered but not trimmed: [" Stop "] is
    sent to the model and the loop goes on.  In [voice_assistant.py] no
    utterance ends the loop: ["stop"] is answered like any other one. *)
Lemma stop_word_counterexample :
  Py.lower (Py.strip " Stop ") = "stop"
  /\ (let r := exec (GuiApp.voice_loop echo_world [heard " Stop "]) gui_app_listening in
      snd r = Returned StillLooping
      /\ conversation_active (GuiApp.run_after_queue (fst r)) = true
      /\ new_events gui_app_listening (fst r) =
         [Listen; Recognize "en-US"; Generate " Stop ";
          Synthesize "You said:  Stop" "en"; Play "/tmp/reply.mp3"])
  /\ (let r := exec (VoiceAssistant.voice_conversation_loop echo_world all_imports
                       [heard "stop"]) voice_assistant_listening in
      snd r = Returned StillLooping
      /\ conversation_active (fst r) = true
      /\ new_events voice_assistant_listening (fst r) =
         [Listen; Recognize "en-US"; Message "user" "stop"; Generate "stop";
          Message "assistant" "You said: stop";
          Spawn (TaskPlayResponseAudio "You said: stop"); Sleep 500]).
Proof. by vm_compute. Qed.

(** C1, amended. Let the recogniser return [text].
    In [gui_app.py], when [text] lowered (not trimmed) is one of "stop",
    "exit", "quit", "goodbye", the pass only queues [stop_conversation] for
    the main thread and breaks out of the loop: nothing is translated or
    sent to the model, and once the main thread has run its queue the
    conversation is inactive.  For any other [text], also one that contains
    a stop word, the pass queues the user message (a callback that shows
    [text] for as long as [user_text] is not assigned again), runs the turn
    on [text] and the loop goes on.
    In [voice_assistant.py] there are no stop words: every [text] that is
    not blank is processed as a turn and the loop goes on. *)
Theorem stop_words_end_the_gui_app_loop (W : World) (I : VoiceAssistant.Imports)
    (g : GUI) (c : attempt) (locale text : string) :
  input_language g !! 1 = Some locale ->
  listen c = Returned tt ->
  recognize_google c locale = Returned text ->
  let g1 := emit (Recognize locale) (emit Listen g) in
  let g2 := bind_user_text text g1 in
  (Py.lower text ∈ ["stop"; "exit"; "quit"; "goodbye"] ->
   exec (GuiApp.voice_loop_body W c) g = (after CbStopConversation g2, Returned Break)
   /\ (forall rest, conversation_active g = true ->
       exec (GuiApp.voice_loop W (c :: rest)) g =
         (after CbStopConversation g2, Returned Left))
   /\ conversation_active (GuiApp.run_after_queue (after CbStopConversation g2)) = false)
  /\ (Py.lower text ∉ ["stop"; "exit"; "quit"; "goodbye"] ->
      exec (GuiApp.voice_loop_body W c) g =
        (fst (exec (GuiApp.process_voice_message W text) (after CbUserMessage g2)),
         Returned NextPass)
      /\ GuiApp.run_callback (after CbUserMessage g2) CbUserMessage =
         emit (Message "user" text) (after CbUserMessage g2))
  /\ (Py.strip text <> "" ->
      exec (VoiceAssistant.listen_for_voice W I c) g =
        (fst (exec (VoiceAssistant.process_text_message W I text) g1),
         Returned (Some true))).
Proof.
  intros Hl Hc Hr g1 g2.
  pose proof (exec_capture_heard c g locale text Hl Hc Hr) as Hcap.
  fold g1 in Hcap.
  split; [| split].
  - intros Hin. apply contains_spec in Hin.
    assert (Hbody : exec (GuiApp.voice_loop_body W c) g =
                    (after CbStopConversation g2, Returned Break)).
    { unfold GuiApp.voice_loop_body.
      rewrite exec_try_except, exec_bind, Hcap, exec_bind, exec_modify.
      change (GuiApp.stop_words) with ["stop"; "exit"; "quit"; "goodbye"].
      by rewrite Hin. }
    split; [done | split].
    + intros rest Hact. by rewrite voice_loop_cons, Hbody.
    + apply run_after_queue_stops.
  - intros Hout.
    assert (Hno : Py.contains ["stop"; "exit"; "quit"; "goodbye"] (Py.lower text) = false).
    { apply not_true_is_false. by rewrite contains_spec. }
    split; [| reflexivity].
    unfold GuiApp.voice_loop_body.
    rewrite exec_try_except, exec_bind, Hcap, exec_bind, exec_modify.
    change (GuiApp.stop_words) with ["stop"; "exit"; "quit"; "goodbye"].
    rewrite Hno, exec_bind, exec_modify, exec_bind.
    pose proof (process_voice_message_returns W text
                  (after CbUserMessage g2)) as Hret.
    fold g2.
    destruct (exec (GuiApp.process_voice_message W text) _) as [g3 r].
    simpl in Hret. by subst r.
  - intros Hne.
    unfold VoiceAssistant.listen_for_voice.
    rewrite exec_try_except, exec_bind, Hcap.
    destruct (Py.strip text) as [| ch s] eqn:E; [done |]. simpl Py.truthy. cbv iota.
    rewrite exec_bind.
    pose proof (process_text_message_returns W I text g1) as Hret.
    destruct (exec (VoiceAssistant.process_text_message W I text) g1) as [g3 r].
    simpl in Hret. by subst r.
Qed.

Lemma stop_words_end_the_gui_app_loop_witness :
  exec (GuiApp.voice_loop_body echo_world (heard "Goodbye")) gui_app_listening =
  (after CbStopConversation
     (bind_user_text "Goodbye"
        (emit (Recognize "en-US") (emit Listen gui_app_listening))),
   Returned Break).
Proof.
  apply (stop_words_end_the_gui_app_loop echo_world all_imports gui_app_listening
           (heard "Goodbye") "en-US" "Goodbye"); try reflexivity.
  change (Py.lower "Goodbye") with "goodbye". rewrite !elem_of_cons. tauto.
Defined.

Example substring_is_not_a_stop_word :
  snd (exec (GuiApp.voice_loop_body echo_world (heard "please stop now"))
            gui_app_listening) = Returned NextPass.
Proof. reflexivity. Qed.

(** ** C5: capture failures *)








(** A recognised utterance that is blank ends the loop of
    [voice_assistant.py]: [listen_for_voice] falls off its end, which the
    loop reads as false; nothing is reported, later attempts are not made,
    and the conversation is reset. *)
Theorem blank_utterance_ends_the_loop (W : World) (I : VoiceAssistant.Imports)
    (g : GUI) (c : attempt) (rest : list attempt) (locale text : string) :
  conversation_active g = true ->
  input_language g !! 1 = Some locale ->
  listen c = Returned tt ->
  recognize_google c locale = Returned text ->
  Py.strip text = "" ->
  exec (VoiceAssistant.voice_conversation_loop W I (c :: rest)) g =
    (set_labels "🎤 Start Conversation" "🎤 Ready"
       (set_conversation_active false (emit (Recognize locale) (emit Listen g))),
     Returned Left).
Proof.
  intros Hact Hl Hc Hr Hblank.
  unfold VoiceAssistant.voice_conversation_loop.
  rewrite exec_bind, exec_try_except, listening_cons by done.
  unfold VoiceAssistant.listen_for_voice.
  rewrite exec_try_except, exec_bind,
    (exec_capture_heard c g locale text Hl Hc Hr), Hblank.
  reflexivity.
Qed.

Lemma blank_utterance_ends_the_loop_witness :
  exec (VoiceAssistant.voice_conversation_loop echo_world all_imports
          [heard "  "; heard "hello"]) voice_assistant_listening =
  (set_labels "🎤 Start Conversation" "🎤 Ready"
     (set_conversation_active false
        (emit (Recognize "en-US") (emit Listen voice_assistant_listening))),
   Returned Left).
Proof.
  apply (blank_utterance_ends_the_loop echo_world all_imports
           voice_assistant_listening (heard "  ") [heard "hello"] "en-US" "  ");
    reflexivity.
Defined.

(** ** The turn pipeline, run without interference *)

(** Symbolic execution: push [exec] through the thread with the equations
    above, and split on what the services answer and on what the shared
    object holds. *)
Ltac exec_eqns :=
  repeat first
    [ rewrite exec_bind | rewrite exec_try_except | rewrite exec_read
    | rewrite exec_modify | rewrite exec_call | rewrite exec_ret
    | rewrite exec_throw
    | progress cbn beta iota delta
        [input_language output_language gemini_client conversation_active
         log after_queue turn_frames turn_e emit after set_after_queue
         set_cells new_turn_frame bind_turn_e unbind_turn_e fst snd
         negb String.eqb Ascii.eqb Bool.eqb] ].

Ltac exec_case :=
  match goal with
  | H : ?x = _ |- context [match ?x with _ => _ end] => rewrite H
  | H : ?x = _ |- context [if ?x then _ else _] => rewrite H
  | |- context [match ?x with _ => _ end] =>
      lazymatch x with
      | context [exec] => fail
      | _ => destruct x eqn:?
      end
  | |- context [if ?x then _ else _] => destruct x eqn:?
  end.

(** What the comparisons of a language code with "en" have established. *)
Ltac code_facts :=
  repeat match goal with
    | H : negb _ = true |- _ => apply negb_true_iff in H
    | H : negb _ = false |- _ => apply negb_false_iff in H
    | H : String.eqb _ _ = false |- _ => apply String.eqb_neq in H
    | H : String.eqb _ _ = true |- _ => apply String.eqb_eq in H
    end.

Ltac exec_all := exec_eqns; repeat (exec_case; exec_eqns); code_facts.

Ltac unfold_turn :=
  unfold turn_events, GuiApp.process_text_message, GuiApp.process_voice_message,
    VoiceAssistant.process_text_message, add_message, input_language_at,
    output_language_at, the_gemini_client, item,
    GeminiClient.chat_with_gemini, GeminiClient.text_to_speech, play_if_any, print.

Ltac events_known :=
  rewrite ?new_events_refl;
  erewrite ?new_events_app
    by (simpl; rewrite <- ?app_assoc;
        first [reflexivity | symmetry; apply app_nil_r]).

(** Membership in an explicit list of events, as a hypothesis. *)
Ltac in_list H :=
  rewrite ?elem_of_app, ?elem_of_cons, ?elem_of_nil in H.

(** ** C3: English input goes to the model as it is *)

(** C3. When the translation code of the input profile is "en", a turn
    makes no inbound translation call (no call with source "auto"), and the
    only prompt it ever gives to the model is the raw text itself; with the
    client in place the turn starts with the user message followed by the
    model call on the raw text.  This holds for both typed-text pipelines
    and for the voice pipeline of [gui_app.py]. *)
Theorem english_input_is_not_translated (W : World) (I : VoiceAssistant.Imports)
    (g : GUI) (message : string) :
  input_language g !! 2 = Some "en" ->
  let gui := turn_events (GuiApp.process_text_message W message) g in
  let voice := turn_events (GuiApp.process_voice_message W message) g in
  let va := turn_events (VoiceAssistant.process_text_message W I message) g in
  ((forall target text, Translate "auto" target text ∉ gui)
   /\ (forall prompt, Generate prompt ∈ gui -> prompt = message)
   /\ (gemini_client g = true ->
       exists rest, gui = Message "user" message :: Generate message :: rest))
  /\ ((forall target text, Translate "auto" target text ∉ voice)
      /\ (forall prompt, Generate prompt ∈ voice -> prompt = message)
      /\ (gemini_client g = true ->
          exists rest, voice = Generate message :: rest))
  /\ ((forall target text, Translate "auto" target text ∉ va)
      /\ (forall prompt, Generate prompt ∈ va -> prompt = message)
      /\ (VoiceAssistant.GEMINI_AVAILABLE I = true -> gemini_client g = true ->
          exists rest, va = Message "user" message :: Generate message :: rest)).
Proof.
  intros Hin gui voice va. subst gui voice va.
  split; [| split].
  - unfold_turn. exec_all; events_known;
      (split; [intros; not_in_list | split;
        [intros prompt Hp; in_list Hp; intuition congruence
        | intros Hcl; try discriminate; by eexists]]).
  - unfold_turn. exec_all; events_known;
      (split; [intros; not_in_list | split;
        [intros prompt Hp; in_list Hp; intuition congruence
        | intros Hcl; try discriminate; by eexists]]).
  - unfold_turn. destruct (VoiceAssistant.GEMINI_AVAILABLE I) eqn:Hga.
    all: exec_all; events_known;
      (split; [intros; not_in_list | split;
        [intros prompt Hp; in_list Hp; intuition congruence
        | intros ? Hcl; try discriminate; by eexists]]).
Qed.

Lemma english_input_is_not_translated_witness :
  exists rest,
    turn_events (GuiApp.process_text_message echo_world "Hello")
                (GuiApp.init (Some "key")) =
    Message "user" "Hello" :: Generate "Hello" :: rest.
Proof.
  apply (english_input_is_not_translated echo_world all_imports
           (GuiApp.init (Some "key")) "Hello" eq_refl).
  reflexivity.
Defined.



(** ** C6: a failed synthesis costs only the audio *)

(** The synthesis fails in a turn of [gui_app.py]: the reply is shown, and
    all there is of the failure is one line printed on the console.  Nothing
    about it is shown in the window, and nothing is queued for the main
    thread. *)
Lemma synthesis_failure_is_only_printed :
  let g := GuiApp.init (Some "key") in
  let r := exec (GuiApp.process_text_message mute_world "Hello") g in
  gTTS_save mute_world "You said: Hello" "en" = Raised (Exception "gTTS unreachable")
  /\ snd r = Returned tt
  /\ new_events g (fst r) =
     [Message "user" "Hello"; Generate "Hello";
      Message "assistant" "You said: Hello";
      Synthesize "You said: Hello" "en";
      Print "Error generating speech: gTTS unreachable"]
  /\ after_queue (fst r) = [].
Proof. by vm_compute. Qed.

(** C6, amended. Whenever a turn of [gui_app.py] reaches the synthesis call
    and the call fails, the turn still returns normally; the assistant
    message with the very text that was to be spoken is already on display
    (in the voice pipeline: already handed to the main thread), and nothing
    is played.  The failure is printed as one line "Error generating
    speech: ..." on the console, which is the last thing the turn does;
    nothing about it is shown to the user: the turn shows no message but
    the user's and the assistant's, opens no dialog and queues nothing else
    for the main thread.  The conversation flag is left as it is. *)
Theorem synthesis_failure_keeps_the_text (W : World) (g : GUI)
    (message text language : string) (e : exn) :
  gTTS_save W text language = Raised e ->
  let r := exec (GuiApp.process_text_message W message) g in
  let r' := exec (GuiApp.process_voice_message W message) g in
  (Synthesize text language ∈ new_events g (fst r) ->
   snd r = Returned tt
   /\ (exists before,
          new_events g (fst r) =
          before ++ [Message "assistant" text; Synthesize text language;
                     Print ("Error generating speech: " +:+ exn_str e)])
   /\ (forall f, Play f ∉ new_events g (fst r))
   /\ (forall kind m,
          Message kind m ∈ new_events g (fst r) ->
          (kind = "user" /\ m = message) \/ (kind = "assistant" /\ m = text))
   /\ (forall kind title m, Dialog kind title m ∉ new_events g (fst r))
   /\ after_queue (fst r) = after_queue g
   /\ conversation_active (fst r) = conversation_active g)
  /\ (Synthesize text language ∈ new_events g (fst r') ->
      snd r' = Returned tt
      /\ (exists before,
             new_events g (fst r') =
             before ++ [Synthesize text language;
                        Print ("Error generating speech: " +:+ exn_str e)])
      /\ after_queue (fst r') = after_queue g ++ [CbAddMessage "assistant" text]
      /\ (forall f, Play f ∉ new_events g (fst r'))
      /\ (forall kind m, Message kind m ∉ new_events g (fst r'))
      /\ (forall kind title m, Dialog kind title m ∉ new_events g (fst r'))
      /\ conversation_active (fst r') = conversation_active g).
Proof.
  intros Hfail r r'. subst r r'. split.
  - unfold_turn.
    exec_all; events_known; intros Hp; in_list Hp; destruct_or!; simplify_eq;
      try (exfalso; congruence).
    all: match goal with
         | H1 : ?call = Raised _, H2 : ?call = Raised _ |- _ =>
             rewrite H1 in H2; simplify_eq
         end.
    all: split; [reflexivity | split; [| split; [intros; not_in_list |]]].
    all: try match goal with
         | |- exists before, ?l = before ++ ?tail =>
             first [ by exists [] | by eexists [_] | by eexists [_; _]
                   | by eexists [_; _; _] | by eexists [_; _; _; _]
                   | by eexists [_; _; _; _; _] ]
         end.
    all: split;
      [ intros kind m Hm; in_list Hm; destruct_or!; simplify_eq; auto
      | split; [intros; not_in_list | split; reflexivity] ].
  - unfold_turn.
    exec_all; events_known; intros Hp; in_list Hp; destruct_or!; simplify_eq;
      try (exfalso; congruence).
    all: match goal with
         | H1 : ?call = Raised _, H2 : ?call = Raised _ |- _ =>
             rewrite H1 in H2; simplify_eq
         end.
    all: split; [reflexivity | split; [| split; [reflexivity |]]].
    all: try match goal with
         | |- exists before, ?l = before ++ ?tail =>
             first [ by exists [] | by eexists [_] | by eexists [_; _]
                   | by eexists [_; _; _] | by eexists [_; _; _; _]
                   | by eexists [_; _; _; _; _] ]
         end.
    all: split; [intros; not_in_list |].
    all: split; [intros; not_in_list |].
    all: split; [intros; not_in_list | reflexivity].
Qed.

Lemma synthesis_failure_keeps_the_text_witness :
  snd (exec (GuiApp.process_text_message mute_world "Hello")
            (GuiApp.init (Some "key"))) = Returned tt
  /\ new_events (GuiApp.init (Some "key"))
       (fst (exec (GuiApp.process_text_message mute_world "Hello")
                  (GuiApp.init (Some "key")))) =
     [Message "user" "Hello"; Generate "Hello";
      Message "assistant" "You said: Hello";
      Synthesize "You said: Hello" "en";
      Print "Error generating speech: gTTS unreachable"].
Proof.
  split; [| reflexivity].
  apply (synthesis_failure_keeps_the_text mute_world (GuiApp.init (Some "key"))
           "Hello" "You said: Hello" "en" (Exception "gTTS unreachable") eq_refl).
  apply list_elem_of_In. vm_compute. tauto.
Defined.

(** ** Turns under a schedule of the main thread *)

Lemma profile_eq_refl (g : GUI) : profile_eq g g.
Proof. by repeat split. Qed.

Lemma profile_eq_trans (g1 g2 g3 : GUI) :
  profile_eq g1 g2 -> profile_eq g2 g3 -> profile_eq g1 g3.
Proof. intros (? & ? & ?) (? & ? & ?). repeat split; congruence. Qed.

Lemma quiet_id : quiet id.
Proof.
  intros g. split; [apply profile_eq_refl |].
  exists []. by rewrite app_nil_r.
Qed.

Lemma quiet_hd (sched : schedule) : Forall quiet sched -> quiet (hd id sched).
Proof. destruct 1; [apply quiet_id | done]. Qed.

Lemma filter_main_thread_events (evs : list event) :
  Forall (fun e => main_thread_event e = true) evs ->
  List.filter turn_event evs = [].
Proof.
  induction 1 as [| e evs He _ IH]; [done |].
  simpl. unfold turn_event at 1. by rewrite He.
Qed.

(** Handlers that are quiet leave no trace in what a turn does. *)
Lemma run_quiet_schedule {A : Type} (t : Thread A) :
  reads_profiles_only t ->
  forall (sched : schedule) (g1 g2 : GUI) (l0 ev1 ev2 : list event),
    Forall quiet sched ->
    profile_eq g1 g2 ->
    log g1 = l0 ++ ev1 ->
    log g2 = l0 ++ ev2 ->
    List.filter turn_event ev1 = List.filter turn_event ev2 ->
    snd (run t sched g1) = snd (run t [] g2)
    /\ profile_eq (fst (run t sched g1)) (fst (run t [] g2))
    /\ exists ev1' ev2',
        log (fst (run t sched g1)) = l0 ++ ev1'
        /\ log (fst (run t [] g2)) = l0 ++ ev2'
        /\ List.filter turn_event ev1' = List.filter turn_event ev2'.
Proof.
  induction t as [a | e | step next IH];
    intros Ht sched g1 g2 l0 ev1 ev2 Hs Hp H1 H2 Hf.
  - simpl. split; [done | split; [done |]]. by exists ev1, ev2.
  - simpl. split; [done | split; [done |]]. by exists ev1, ev2.
  - destruct Ht as ((evs & Happ) & Hnext & Hrest).
    destruct (quiet_hd sched Hs g1) as (Hpq & evh & Hlq & Hmain).
    set (g1a := hd id sched g1) in *.
    change (run (Atomic step next) sched g1)
      with (run (next g1a) (tl sched) (step g1a)).
    change (run (Atomic step next) [] g2) with (run (next g2) [] (step g2)).
    assert (Hpa : profile_eq g1a g2) by (by eapply profile_eq_trans).
    rewrite (Hnext g1a g2 Hpa).
    destruct (Happ g1a) as (Hp1 & Hl1). destruct (Happ g2) as (Hp2 & Hl2).
    apply (IH g2 (Hrest g2) (tl sched) (step g1a) (step g2) l0
              (ev1 ++ evh ++ evs) (ev2 ++ evs)).
    + by apply Forall_tail.
    + eapply profile_eq_trans; [exact Hp1 |].
      eapply profile_eq_trans; [exact Hpa |].
      destruct Hp2 as (? & ? & ?). by repeat split.
    + rewrite Hl1, Hlq, H1. by rewrite <- !app_assoc.
    + rewrite Hl2, H2. by rewrite <- !app_assoc.
    + rewrite !List.filter_app, (filter_main_thread_events evh Hmain), Hf.
      done.
Qed.

Lemma reads_profiles_only_bind {A B : Type} (t : Thread A) (k : A -> Thread B) :
  reads_profiles_only t ->
  (forall a, reads_profiles_only (k a)) ->
  reads_profiles_only (bind t k).
Proof.
  induction t as [a | e | step next IH]; intros Ht Hk; simpl; auto.
  destruct Ht as (Happ & Hnext & Hrest). split; [done | split].
  - intros g g' Hp. by rewrite (Hnext g g' Hp).
  - intros g. by apply IH.
Qed.

Lemma reads_profiles_only_try_except {A : Type} (t : Thread A)
    (h : exn -> Thread A) :
  reads_profiles_only t ->
  (forall e, reads_profiles_only (h e)) ->
  reads_profiles_only (try_except t h).
Proof.
  induction t as [a | e | step next IH]; intros Ht Hh; simpl; auto.
  destruct Ht as (Happ & Hnext & Hrest). split; [done | split].
  - intros g g' Hp. by rewrite (Hnext g g' Hp).
  - intros g. by apply IH.
Qed.

Lemma appends_emit (e : event) : appends (emit e).
Proof. exists [e]. intros g. split; [by repeat split | done]. Qed.

Lemma appends_id : appends id.
Proof.
  exists []. intros g. split; [apply profile_eq_refl | by rewrite app_nil_r].
Qed.

Lemma reads_profiles_only_emit (e : event) : reads_profiles_only (modify (emit e)).
Proof. simpl. split; [apply appends_emit | done]. Qed.

Lemma reads_profiles_only_call {A : Type} (e : event) (r : outcome A) :
  reads_profiles_only (call e r).
Proof. simpl. split; [apply appends_emit |]. split; [done |]. by destruct r. Qed.

Lemma reads_profiles_only_item (xs : list string) (i : nat) :
  reads_profiles_only (item xs i).
Proof. unfold item. by destruct (xs !! i). Qed.

Lemma reads_profiles_only_input (i : nat) :
  reads_profiles_only (input_language_at i).
Proof.
  simpl. split; [apply appends_id |]. split.
  - by intros g g' (-> & _).
  - intros g. apply reads_profiles_only_item.
Qed.

Lemma reads_profiles_only_output (i : nat) :
  reads_profiles_only (output_language_at i).
Proof.
  simpl. split; [apply appends_id |]. split.
  - by intros g g' (_ & -> & _).
  - intros g. apply reads_profiles_only_item.
Qed.

Lemma reads_profiles_only_client (cls : string) :
  reads_profiles_only (the_gemini_client cls).
Proof.
  simpl. split; [apply appends_id |]. split.
  - by intros g g' (_ & _ & ->).
  - intros g. by destruct (gemini_client g).
Qed.

Lemma reads_profiles_only_chat (W : World) (prompt : string) :
  reads_profiles_only (GeminiClient.chat_with_gemini W prompt).
Proof.
  apply reads_profiles_only_try_except.
  - apply reads_profiles_only_bind; [apply reads_profiles_only_call | done].
  - intros e. apply reads_profiles_only_bind;
      [apply reads_profiles_only_emit | done].
Qed.

Lemma reads_profiles_only_speech (W : World) (text language : string) :
  reads_profiles_only (GeminiClient.text_to_speech W text language).
Proof.
  apply reads_profiles_only_try_except.
  - apply reads_profiles_only_bind; [apply reads_profiles_only_call | done].
  - intros e. apply reads_profiles_only_bind;
      [apply reads_profiles_only_emit | done].
Qed.

Lemma reads_profiles_only_play (W : World) (audio_file : option string) :
  reads_profiles_only (play_if_any W audio_file).
Proof.
  destruct audio_file as [f |]; [| done]. simpl.
  destruct (Py.truthy f); [apply reads_profiles_only_call | done].
Qed.

Lemma reads_profiles_only_turn (W : World) (message : string) :
  reads_profiles_only (GuiApp.process_text_message W message).
Proof.
  unfold GuiApp.process_text_message.
  apply reads_profiles_only_try_except;
    [| intros e; apply reads_profiles_only_emit].
  repeat match goal with
    | |- reads_profiles_only (bind _ _) =>
        apply reads_profiles_only_bind; [| intros ?]
    | |- reads_profiles_only (add_message _ _) => apply reads_profiles_only_emit
    | |- reads_profiles_only (call _ _) => apply reads_profiles_only_call
    | |- reads_profiles_only (input_language_at _) =>
        apply reads_profiles_only_input
    | |- reads_profiles_only (output_language_at _) =>
        apply reads_profiles_only_output
    | |- reads_profiles_only (the_gemini_client _) =>
        apply reads_profiles_only_client
    | |- reads_profiles_only (GeminiClient.chat_with_gemini _ _) =>
        apply reads_profiles_only_chat
    | |- reads_profiles_only (GeminiClient.text_to_speech _ _ _) =>
        apply reads_profiles_only_speech
    | |- reads_profiles_only (play_if_any _ _) => apply reads_profiles_only_play
    | |- reads_profiles_only (if ?b then _ else _) => destruct b
    | |- reads_profiles_only (Ret _) => exact Logic.I
    end.
Qed.

(** The handlers of [gui_app.py] other than the two language pickers are
    quiet. *)
Lemma quiet_stop_conversation : quiet GuiApp.stop_conversation.
Proof.
  intros g. split; [by repeat split |].
  eexists. split; [reflexivity |]. by repeat constructor.
Qed.

Lemma quiet_start_conversation : quiet GuiApp.start_conversation.
Proof.
  intros g. unfold GuiApp.start_conversation.
  destruct (gemini_client g) eqn:Hc; simpl;
    [destruct (conversation_active g); simpl |].
  - split; [apply profile_eq_refl |]. exists []. by rewrite app_nil_r.
  - split; [by repeat split |].
    eexists [_; _]. split; [by rewrite <- app_assoc | by repeat constructor].
  - split; [by repeat split |].
    eexists. split; [reflexivity | by repeat constructor].
Qed.

Lemma quiet_send_text_message : quiet GuiApp.send_text_message.
Proof.
  intros g. unfold GuiApp.send_text_message.
  destruct (_ && _).
  - split; [by repeat split |].
    eexists. split; [reflexivity | by repeat constructor].
  - split; [apply profile_eq_refl |]. exists []. by rewrite app_nil_r.
Qed.

(** What the stages of an undisturbed turn are given: the language of the
    synthesis and the target of the outbound translation are the code of the
    output profile the turn starts with, and the inbound translation is made
    only when the code of the input profile it starts with is not "en". *)
Lemma turn_stage_profiles (W : World) (g : GUI) (message : string) :
  let events := turn_events (GuiApp.process_text_message W message) g in
  (forall text language,
      Synthesize text language ∈ events -> output_language g !! 2 = Some language)
  /\ (forall target text,
         Translate "en" target text ∈ events ->
         output_language g !! 2 = Some target /\ target <> "en")
  /\ (forall target text,
         Translate "auto" target text ∈ events ->
         input_language g !! 2 <> Some "en" /\ target = "en" /\ text = message).
Proof.
  intros events. subst events. split; [| split].
  - intros text language. unfold_turn.
    exec_all; events_known; intros Hp; in_list Hp; destruct_or!; simplify_eq;
      congruence.
  - intros target text. unfold_turn.
    exec_all; events_known; intros Hp; in_list Hp; destruct_or!; simplify_eq;
      (split; congruence).
  - intros target text. unfold_turn.
    exec_all; events_known; intros Hp; in_list Hp; destruct_or!; simplify_eq;
      (split; [congruence | done]).
Qed.

(** ** C9: a profile update while a turn is in flight *)

(** The turn starts with English input and output.  The user picks French
    as output language after the turn has decided not to translate the
    reply and before it reads the language for the synthesis: the reply
    stays in English and is synthesised as French. *)
Lemma profile_update_mid_turn_counterexample :
  let g := GuiApp.init (Some "key") in
  let pick_french :=
    GuiApp.select_output_language VoiceAssistant.fallback_languages_dict "french" in
  let r := run (GuiApp.process_text_message echo_world "Hello")
               [id; id; id; id; id; id; id; pick_french] g in
  output_language g = ["English"; "en-US"; "en"]
  /\ output_language (fst r) = ["French"; "fr-FR"; "fr"]
  /\ new_events g (fst r) =
     [Message "user" "Hello"; Generate "Hello";
      Message "assistant" "You said: Hello";
      Synthesize "You said: Hello" "fr"; Play "/tmp/reply.mp3"].
Proof. by vm_compute. Qed.

(** C9, amended. A turn keeps no copy of the profiles: each stage reads the
    profile that is current when the stage runs.  So when the main thread
    applies no profile update while the turn is in flight (its handlers are
    quiet), whatever else it does in between, the turn returns the same,
    and does the same calls, prints and messages in the same order, as the
    turn run alone from the state it started in; every stage then works
    with the profile pair the turn started with. *)
Theorem turn_without_update_uses_start_profiles (W : World) (g : GUI)
    (message : string) (sched : schedule) :
  Forall quiet sched ->
  let r := run (GuiApp.process_text_message W message) sched g in
  let alone := exec (GuiApp.process_text_message W message) g in
  snd r = snd alone
  /\ List.filter turn_event (new_events g (fst r)) =
     List.filter turn_event (new_events g (fst alone))
  /\ (forall text language,
         Synthesize text language ∈ new_events g (fst r) ->
         output_language g !! 2 = Some language)
  /\ (forall target text,
         Translate "en" target text ∈ new_events g (fst r) ->
         output_language g !! 2 = Some target /\ target <> "en")
  /\ (forall target text,
         Translate "auto" target text ∈ new_events g (fst r) ->
         input_language g !! 2 <> Some "en" /\ target = "en" /\ text = message).
Proof.
  intros Hs r alone.
  destruct (run_quiet_schedule _ (reads_profiles_only_turn W message)
              sched g g (log g) [] [] Hs (profile_eq_refl g))
    as (Hret & _ & ev1 & ev2 & Hl1 & Hl2 & Hf);
    [by rewrite app_nil_r | by rewrite app_nil_r | done |].
  fold r in Hret, Hl1. fold (exec (GuiApp.process_text_message W message) g) in Hret, Hl2.
  fold alone in Hret, Hl2.
  rewrite (new_events_app _ _ _ Hl1), (new_events_app _ _ _ Hl2).
  assert (Hin : forall e, turn_event e = true -> e ∈ ev1 -> e ∈ ev2).
  { intros e He Hin. apply list_elem_of_In.
    apply (proj1 (List.filter_In turn_event e ev2)).
    rewrite <- Hf. apply List.filter_In. by rewrite <- list_elem_of_In. }
  pose proof (turn_stage_profiles W g message) as (Hsyn & Hout & Hinb).
  unfold turn_events in Hsyn, Hout, Hinb. fold alone in Hsyn, Hout, Hinb.
  rewrite (new_events_app _ _ _ Hl2) in Hsyn, Hout, Hinb.
  split; [done | split; [done |]].
  split; [| split].
  - intros text language H. by apply (Hsyn text), Hin.
  - intros target text H. by apply (Hout target text), Hin.
  - intros target text H. by apply (Hinb target text), Hin.
Qed.

Lemma turn_without_update_uses_start_profiles_witness :
  snd (run (GuiApp.process_text_message echo_world "Hello")
           [id; GuiApp.stop_conversation; GuiApp.start_conversation]
           (GuiApp.init (Some "key"))) = Returned tt.
Proof.
  refine (proj1 (turn_without_update_uses_start_profiles echo_world
                   (GuiApp.init (Some "key")) "Hello"
                   [id; GuiApp.stop_conversation; GuiApp.start_conversation] _)).
  constructor; [apply quiet_id |].
  constructor; [apply quiet_stop_conversation |].
  constructor; [apply quiet_start_conversation | constructor].
Defined.

(** ** Turns alone and under quiet handlers *)










(** ** C4: an English reply is delivered as it is *)




(** ** C2: the inference stage never fails a turn *)




(** * Further properties *)

(** ** Threads that absorb every exception *)

Lemma run_try_except_unit (t : Thread unit) (h : exn -> Thread unit) :
  (forall e sched g, snd (run (h e) sched g) = Returned tt) ->
  forall sched g, snd (run (try_except t h) sched g) = Returned tt.
Proof.
  intros Hh. induction t as [[] | e | step next IH]; intros sched g; simpl.
  - done.
  - apply Hh.
  - apply IH.
Qed.

(** Whatever the services answer and whatever the main thread does between
    the steps, a turn of either class, the playback thread of
    [voice_assistant.py] and its microphone test come to an end without
    raising: no exception leaves the thread. *)
Theorem turns_never_raise (W : World) (I : VoiceAssistant.Imports)
    (c : attempt) (message : string) (sched : schedule) (g : GUI) :
  snd (run (GuiApp.process_text_message W message) sched g) = Returned tt
  /\ snd (run (GuiApp.process_voice_message W message) sched g) = Returned tt
  /\ snd (run (VoiceAssistant.process_text_message W I message) sched g)
     = Returned tt
  /\ snd (run (VoiceAssistant.play_response_audio W I message) sched g)
     = Returned tt
  /\ snd (run (VoiceAssistant.test_mic_thread c) sched g) = Returned tt.
Proof.
  repeat split; apply run_try_except_unit; intros e s g'; try reflexivity.
  by destruct e.
Qed.

(** ** The synthesis adapter *)

(** [text_to_speech] never raises, whatever the main thread does in
    between: it returns the name of the audio file when the synthesis
    succeeds and [None] when it fails.  Run alone it logs the call, and on a
    failure one printed line after it, and nothing else. *)
Theorem text_to_speech_never_raises (W : World) (text language : string)
    (sched : schedule) (g : GUI) :
  let t := GeminiClient.text_to_speech W text language in
  exists result,
    snd (run t sched g) = Returned result
    /\ (forall f, gTTS_save W text language = Returned f ->
        result = Some f
        /\ new_events g (fst (exec t g)) = [Synthesize text language])
    /\ (forall e, gTTS_save W text language = Raised e ->
        result = None
        /\ new_events g (fst (exec t g)) =
           [Synthesize text language;
            Print ("Error generating speech: " +:+ exn_str e)]).
Proof.
  intros t. subst t.
  unfold GeminiClient.text_to_speech, print.
  destruct (gTTS_save W text language) as [f | e] eqn:E.
  - exists (Some f). split; [| split].
    + done.
    + intros f' [= <-]. split; [done |].
      exec_eqns. by events_known.
    + intros e [=].
  - exists None. split; [| split].
    + done.
    + intros f [=].
    + intros e' [= <-]. split; [done |].
      exec_eqns. by events_known.
Qed.

(** ** What a turn does when a stage fails *)

Lemma not_en (code : string) : code <> "en" -> negb (String.eqb code "en") = true.
Proof. intros H. apply negb_true_iff. by apply String.eqb_neq. Qed.

(** When the input language is not English and the inbound translation
    fails, the turn ends there: the model is never called with the
    untranslated text, and nothing is synthesised or played.  In the text
    pipelines the failure is reported as an error message.  In the voice
    pipeline of [gui_app.py] the report is a lambda queued for the main
    thread, which reads [e] after the [except] clause has ended: once the
    turn has returned, running it raises [NameError] and shows nothing. *)
Theorem inbound_translation_failure_stops_the_turn (W : World)
    (I : VoiceAssistant.Imports) (g : GUI) (message code : string) (e : exn) :
  input_language g !! 2 = Some code ->
  code <> "en" ->
  translate W "auto" "en" message = Raised e ->
  turn_events (GuiApp.process_text_message W message) g =
    [Message "user" message; Translate "auto" "en" message;
     Message "error" ("Error processing message: " +:+ exn_str e)]
  /\ (let g' := fst (exec (GuiApp.process_voice_message W message) g) in
      turn_events (GuiApp.process_voice_message W message) g =
        [Translate "auto" "en" message]
      /\ after_queue g' = after_queue g ++ [CbProcessingError (S (turn_frames g))]
      /\ GuiApp.run_callback g' (CbProcessingError (S (turn_frames g))) =
         emit (CallbackException (unbound "e")) g')
  /\ (VoiceAssistant.GEMINI_AVAILABLE I = true ->
      VoiceAssistant.TRANSLATOR_AVAILABLE I = true ->
      turn_events (VoiceAssistant.process_text_message W I message) g =
        [Message "user" message; Translate "auto" "en" message;
         Message "error" ("Failed to process message: " +:+ exn_str e)]).
Proof.
  intros Hin Hne%not_en Hfail.
  assert (Hvoice : exec (GuiApp.process_voice_message W message) g =
            (unbind_turn_e
               (after (CbProcessingError (S (turn_frames g)))
                  (bind_turn_e (exn_str e)
                     (emit (Translate "auto" "en" message) (new_turn_frame g)))),
             Returned tt)).
  { unfold GuiApp.process_voice_message, input_language_at, item.
    exec_eqns. rewrite Hin. exec_eqns. rewrite Hne. exec_eqns.
    rewrite Hfail. by exec_eqns. }
  split; [| split].
  - unfold_turn. exec_eqns. rewrite Hin. exec_eqns. rewrite Hne. exec_eqns.
    rewrite Hfail. exec_eqns. by events_known.
  - intros g'. subst g'. unfold turn_events. rewrite Hvoice. simpl fst.
    split; [| split].
    + apply new_events_app. reflexivity.
    + reflexivity.
    + unfold GuiApp.run_callback. simpl. by rewrite Nat.eqb_refl.
  - intros Hg Ht. unfold_turn. rewrite Hg, Ht.
    exec_eqns. rewrite Hin. exec_eqns. rewrite Hne. exec_eqns.
    rewrite Hfail. exec_eqns. by events_known.
Qed.

Lemma inbound_translation_failure_stops_the_turn_witness :
  turn_events (GuiApp.process_text_message dead_world "Hola") spanish_to_french =
  [Message "user" "Hola"; Translate "auto" "en" "Hola";
   Message "error" "Error processing message: no route to host"].
Proof.
  apply (inbound_translation_failure_stops_the_turn dead_world all_imports
           spanish_to_french "Hola" "es" (Exception "no route to host"));
    [reflexivity | discriminate | reflexivity].
Defined.

(** When the outbound translation of a turn of [gui_app.py] fails, the reply
    is lost: the turn ends with the error message right after the call, no
    assistant message is shown, and nothing is synthesised or played. *)
Theorem outbound_translation_failure_hides_the_reply (W : World) (g : GUI)
    (message target reply : string) (e : exn) :
  translate W "en" target reply = Raised e ->
  let events := turn_events (GuiApp.process_text_message W message) g in
  Translate "en" target reply ∈ events ->
  (exists before,
      events = before ++
               [Translate "en" target reply;
                Message "error" ("Error processing message: " +:+ exn_str e)])
  /\ (forall text, Message "assistant" text ∉ events)
  /\ (forall text language, Synthesize text language ∉ events)
  /\ (forall f, Play f ∉ events).
Proof.
  intros Hfail events. subst events. unfold_turn.
  exec_all; events_known; intros Hp; in_list Hp; destruct_or!; simplify_eq;
    try (exfalso; congruence).
  all: match goal with
       | H1 : ?call = Raised _, H2 : ?call = Raised _ |- _ =>
           rewrite H1 in H2; simplify_eq
       end.
  all: split; [| repeat split; intros; not_in_list].
  all: first [ by eexists [_; _] | by eexists [_; _; _]
             | by eexists [_; _; _; _] ].
Qed.

Lemma outbound_translation_failure_hides_the_reply_witness :
  exists before,
    turn_events (GuiApp.process_text_message translator_down_world "Hello")
                english_to_french =
    before ++ [Translate "en" "fr" "You said: Hello";
               Message "error" "Error processing message: no route to host"].
Proof.
  refine (proj1 (outbound_translation_failure_hides_the_reply
                   translator_down_world english_to_french "Hello" "fr"
                   "You said: Hello" (Exception "no route to host") eq_refl _)).
  apply list_elem_of_In. vm_compute. tauto.
Defined.

(** When the playback of a turn of [gui_app.py] fails, the reply has
    already been shown and synthesised; the failure is reported as an error
    message after it, as the last thing the turn does. *)
Theorem playback_failure_is_reported (W : World) (g : GUI)
    (message f : string) (e : exn) :
  play_audio W f = Raised e ->
  let events := turn_events (GuiApp.process_text_message W message) g in
  Play f ∈ events ->
  exists before text language,
    events = before ++
             [Message "assistant" text; Synthesize text language; Play f;
              Message "error" ("Error processing message: " +:+ exn_str e)].
Proof.
  intros Hfail events. subst events. unfold_turn.
  exec_all; events_known; intros Hp; in_list Hp; destruct_or!; simplify_eq;
    try (exfalso; congruence).
  all: match goal with
       | H1 : ?call = Raised _, H2 : ?call = Raised _ |- _ =>
           rewrite H1 in H2; simplify_eq
       end.
  all: first [ by eexists [_; _], _, _ | by eexists [_; _; _], _, _
             | by eexists [_; _; _; _], _, _ | by eexists [_; _; _; _; _], _, _ ].
Qed.

Lemma playback_failure_is_reported_witness :
  exists before text language,
    turn_events (GuiApp.process_text_message speaker_down_world "Hello")
                (GuiApp.init (Some "key")) =
    before ++ [Message "assistant" text; Synthesize text language;
               Play "/tmp/reply.mp3";
               Message "error" "Error processing message: no audio device"].
Proof.
  refine (playback_failure_is_reported speaker_down_world
            (GuiApp.init (Some "key")) "Hello" "/tmp/reply.mp3"
            (Exception "no audio device") eq_refl _).
  apply list_elem_of_In. vm_compute. tauto.
Defined.

(** Without a client (the API key was missing when the window was built), a
    turn of [gui_app.py] never calls the model, shows no assistant message
    and synthesises and plays nothing; it ends with an error message.  With
    English input that message names the missing attribute and nothing else
    happens. *)
Theorem no_client_no_model_call (W : World) (g : GUI) (message : string) :
  gemini_client g = false ->
  let events := turn_events (GuiApp.process_text_message W message) g in
  (forall prompt, Generate prompt ∉ events)
  /\ (forall text, Message "assistant" text ∉ events)
  /\ (forall text language, Synthesize text language ∉ events)
  /\ (forall f, Play f ∉ events)
  /\ (exists before text, events = before ++ [Message "error" text])
  /\ (input_language g !! 2 = Some "en" ->
      events =
        [Message "user" message;
         Message "error" "Error processing message: 'MultilingualGUI' object has no attribute 'gemini_client'"]).
Proof.
  intros Hcl events. subst events. unfold_turn.
  exec_all; events_known.
  all: repeat split; try (intros; not_in_list).
  all: try (intros [=]; fail).
  all: try first [ by eexists [_], _ | by eexists [_; _], _ ].
  all: intros _; reflexivity.
Qed.

Lemma no_client_no_model_call_witness :
  turn_events (GuiApp.process_text_message echo_world "Hello") (GuiApp.init None) =
  [Message "user" "Hello";
   Message "error" "Error processing message: 'MultilingualGUI' object has no attribute 'gemini_client'"].
Proof.
  apply (no_client_no_model_call echo_world (GuiApp.init None) "Hello");
    reflexivity.
Defined.

(** ** The whole path *)

(** When neither language is English, the client is in place and every
    service answers, a turn of [gui_app.py] is exactly: the user message,
    the translation of the text to English, the model call on the English
    text, the translation of the stripped reply to the output language, the
    assistant message with the translated reply, its synthesis in the output
    language, and the playback of the file. *)
Theorem translated_turn (W : World) (g : GUI)
    (message i o english raw final file : string) :
  input_language g !! 2 = Some i -> i <> "en" ->
  output_language g !! 2 = Some o -> o <> "en" ->
  gemini_client g = true ->
  translate W "auto" "en" message = Returned english ->
  generate_content W english = Returned raw ->
  translate W "en" o (Py.strip raw) = Returned final ->
  gTTS_save W final o = Returned file -> file <> "" ->
  play_audio W file = Returned tt ->
  turn_events (GuiApp.process_text_message W message) g =
    [Message "user" message; Translate "auto" "en" message; Generate english;
     Translate "en" o (Py.strip raw); Message "assistant" final;
     Synthesize final o; Play file]
  /\ snd (exec (GuiApp.process_text_message W message) g) = Returned tt.
Proof.
  intros Hi Hine%not_en Ho Hone%not_en Hcl H1 H2 H3 H4 Hfile H5.
  assert (Htr : Py.truthy file = true) by (by destruct file).
  unfold_turn. exec_eqns.
  rewrite Hi. exec_eqns. rewrite Hine. exec_eqns. rewrite H1. exec_eqns.
  rewrite Hcl. exec_eqns. rewrite H2. exec_eqns.
  rewrite Ho. exec_eqns. rewrite Hone. exec_eqns. rewrite Ho. exec_eqns.
  rewrite H3. exec_eqns. rewrite Hcl. exec_eqns. rewrite Ho. exec_eqns.
  rewrite H4. exec_eqns. rewrite Htr. exec_eqns. rewrite H5. exec_eqns.
  split; [by events_known | done].
Qed.

Lemma translated_turn_witness :
  turn_events (GuiApp.process_text_message echo_world "Hola") spanish_to_french =
  [Message "user" "Hola"; Translate "auto" "en" "Hola";
   Generate "[en] Hola"; Translate "en" "fr" "You said: [en] Hola";
   Message "assistant" "[fr] You said: [en] Hola";
   Synthesize "[fr] You said: [en] Hola" "fr"; Play "/tmp/reply.mp3"].
Proof.
  apply (translated_turn echo_world spanish_to_french "Hola" "es" "fr"
           "[en] Hola" "You said: [en] Hola" "[fr] You said: [en] Hola"
           "/tmp/reply.mp3");
    first [reflexivity | discriminate].
Defined.

(** When [deep_translator] could not be imported, a turn of
    [voice_assistant.py] translates nothing, whatever the two profiles say:
    the only prompt the model gets is the raw text, and every assistant
    message is what [chat_with_gemini] returned for it. *)
Theorem missing_translator_skips_translation (W : World)
    (I : VoiceAssistant.Imports) (g : GUI) (message : string) :
  VoiceAssistant.TRANSLATOR_AVAILABLE I = false ->
  let events := turn_events (VoiceAssistant.process_text_message W I message) g in
  (forall source target text, Translate source target text ∉ events)
  /\ (forall prompt, Generate prompt ∈ events -> prompt = message)
  /\ (forall reply,
         Message "assistant" reply ∈ events ->
         snd (exec (GeminiClient.chat_with_gemini W message) g) = Returned reply).
Proof.
  intros Ht events. subst events. split; [| split].
  - unfold_turn. rewrite Ht. exec_all; events_known; intros; not_in_list.
  - unfold_turn. rewrite Ht.
    exec_all; events_known; intros prompt Hp; in_list Hp; intuition congruence.
  - unfold_turn. rewrite Ht.
    exec_all; events_known; intros reply Hp; in_list Hp; destruct_or!;
      simplify_eq; congruence.
Qed.

Lemma missing_translator_skips_translation_witness :
  snd (exec (GeminiClient.chat_with_gemini echo_world "Hola") spanish_to_french)
  = Returned "You said: Hola".
Proof.
  refine (proj2 (proj2 (missing_translator_skips_translation echo_world
            {| VoiceAssistant.SPEECH_AVAILABLE := true;
               VoiceAssistant.PYAUDIO_AVAILABLE := true;
               VoiceAssistant.TRANSLATOR_AVAILABLE := false;
               VoiceAssistant.GEMINI_AVAILABLE := true;
               VoiceAssistant.AUDIO_PLAYBACK_AVAILABLE := true;
               VoiceAssistant.languages_import := None |}
            spanish_to_french "Hola" eq_refl)) "You said: Hola" _).
  apply list_elem_of_In. vm_compute. tauto.
Defined.

(** ** The entry box *)

(** Sending twice without typing in between sends once: after a message
    has been sent the box holds the placeholder, which is never sent. *)
Theorem send_twice_sends_once (g : GUI) :
  GuiApp.send_text_message (GuiApp.send_text_message g)
  = GuiApp.send_text_message g
  /\ VoiceAssistant.send_text_message (VoiceAssistant.send_text_message g)
     = VoiceAssistant.send_text_message g.
Proof.
  split.
  - unfold GuiApp.send_text_message at 2 3.
    destruct (_ && _) eqn:E.
    + reflexivity.
    + unfold GuiApp.send_text_message. by rewrite E.
  - unfold VoiceAssistant.send_text_message at 2 3.
    destruct (_ && _) eqn:E.
    + reflexivity.
    + unfold VoiceAssistant.send_text_message. by rewrite E.
Qed.

(** A box that shows the placeholder is emptied, and its text colour set
    to white, when it gets the focus; a send at that moment does nothing;
    when the focus leaves, the placeholder is back, in grey.  The object is
    then as before the focus came but for that colour: exactly as before
    when the placeholder was grey (as [send_text_message] and
    [add_placeholder] leave it), and not in the window as it is built, where
    the placeholder is white.  Text that is neither empty nor the
    placeholder is left alone by both handlers. *)
Theorem placeholder_round_trip (g : GUI) :
  (text_input g = "Type message" ->
   text_input (GuiApp.clear_placeholder g) = ""
   /\ text_input_fg (GuiApp.clear_placeholder g) = "white"
   /\ GuiApp.send_text_message (GuiApp.clear_placeholder g)
      = GuiApp.clear_placeholder g
   /\ GuiApp.add_placeholder (GuiApp.clear_placeholder g)
      = set_text_input_fg "#808080" g
   /\ (text_input_fg g = "#808080" ->
       GuiApp.add_placeholder (GuiApp.clear_placeholder g) = g))
  /\ (text_input g <> "" -> text_input g <> "Type message" ->
      GuiApp.clear_placeholder g = g /\ GuiApp.add_placeholder g = g)
  /\ (forall api_key,
         text_input_fg (GuiApp.init api_key) = "white"
         /\ text_input_fg (GuiApp.add_placeholder
                             (GuiApp.clear_placeholder (GuiApp.init api_key)))
            = "#808080").
Proof.
  split; [| split].
  - intros Ht. unfold GuiApp.clear_placeholder. rewrite Ht. simpl.
    repeat split.
    + destruct g; simpl in *. by subst.
    + intros Hfg. destruct g; simpl in *. by subst.
  - intros Hne Hph. unfold GuiApp.clear_placeholder, GuiApp.add_placeholder.
    apply String.eqb_neq in Hph. unfold placeholder. rewrite Hph.
    split; [done |]. by destruct (text_input g).
  - intros api_key. split; reflexivity.
Qed.

(** ** What no sequence of actions can do *)

Lemma after_actions_invariant (handle : action -> GUI -> GUI) (P : GUI -> Prop) :
  (forall a g, P g -> P (handle a g)) ->
  forall actions g, P g -> P (after_actions handle actions g).
Proof.
  intros Hstep actions. unfold after_actions.
  induction actions as [| a actions IH]; intros g Hg; simpl; auto.
Qed.

(** In [gui_app.py], when the API key was missing as the window was built,
    no sequence of clicks, typing and language picks ever makes a
    conversation active or starts a voice loop. *)
Theorem no_conversation_without_client
    (languages_dict : gmap string (string * string)) (api_key : option string)
    (actions : list action) :
  Main.key_missing api_key = true ->
  let g := after_actions (gui_app_handle languages_dict) actions
             (GuiApp.init api_key) in
  conversation_active g = false /\ (Spawn TaskVoiceLoop ∉ log g).
Proof.
  intros Hkey g.
  pose (P := fun g : GUI =>
               gemini_client g = false /\ conversation_active g = false
               /\ after_queue g = [] /\ (Spawn TaskVoiceLoop ∉ log g)).
  assert (HP : P g).
  { apply after_actions_invariant.
    - intros a g0 (Hc & Ha & Hq & Hl). unfold P.
      destruct a; simpl.
      + unfold GuiApp.start_conversation. rewrite Hc. simpl.
        repeat split; try done; simpl; not_in_list.
      + repeat split; try done; simpl; not_in_list.
      + unfold GuiApp.send_text_message. destruct (_ && _); [| done].
        repeat split; try done; simpl; not_in_list.
      + unfold GuiApp.apply_language_settings.
        destruct (input_language g0 !! 0), (output_language g0 !! 0); simpl;
          repeat split; try done; simpl; not_in_list.
      + done.
      + unfold GuiApp.clear_placeholder. by destruct (String.eqb _ _).
      + unfold GuiApp.add_placeholder. by destruct (negb _).
      + unfold GuiApp.select_input_language, GuiApp.update_input_language.
        simpl. by destruct (languages_dict !! name) as [[] |].
      + unfold GuiApp.select_output_language, GuiApp.update_output_language.
        simpl. by destruct (languages_dict !! name) as [[] |].
      + unfold GuiApp.run_after_queue. by rewrite Hq.
    - unfold P, GuiApp.init. destruct api_key as [[| ch k] |]; try done;
        simpl; repeat split; not_in_list. }
  destruct HP as (_ & Ha & _ & Hl). done.
Qed.

Lemma no_conversation_without_client_witness :
  conversation_active
    (after_actions (gui_app_handle VoiceAssistant.fallback_languages_dict)
       [ClickStart; PickInput "spanish"; ClickStart; Idle; ClickStart]
       (GuiApp.init None)) = false.
Proof.
  apply (no_conversation_without_client VoiceAssistant.fallback_languages_dict
           None [ClickStart; PickInput "spanish"; ClickStart; Idle; ClickStart]
           eq_refl).
Defined.

(** In [voice_assistant.py], when [speech_recognition] or [pyaudio] could
    not be imported, no sequence of clicks, typing and language picks ever
    makes a conversation active or starts a voice loop. *)
Theorem no_conversation_without_voice (I : VoiceAssistant.Imports)
    (api_key : option string) (actions : list action) :
  VoiceAssistant.SPEECH_AVAILABLE I && VoiceAssistant.PYAUDIO_AVAILABLE I = false ->
  let g := after_actions (voice_assistant_handle I) actions
             (VoiceAssistant.init I api_key) in
  conversation_active g = false /\ (Spawn TaskVoiceLoop ∉ log g).
Proof.
  intros Hvoice g.
  pose (P := fun g : GUI =>
               voice_enabled g = false /\ conversation_active g = false
               /\ (Spawn TaskVoiceLoop ∉ log g)).
  assert (HP : P g).
  { apply after_actions_invariant.
    - intros a g0 (Hv & Ha & Hl). unfold P.
      destruct a; simpl.
      + unfold VoiceAssistant.start_conversation. rewrite Hv. simpl.
        repeat split; try done; simpl; not_in_list.
      + repeat split; try done; simpl; not_in_list.
      + unfold VoiceAssistant.send_text_message. destruct (Py.truthy _ && _); [| by repeat split].
        repeat split; try done; simpl; not_in_list.
      + unfold VoiceAssistant.apply_language_settings,
          VoiceAssistant.update_input_language,
          VoiceAssistant.update_output_language.
        destruct (VoiceAssistant.languages_dict I !! input_lang_var g0)
          as [[] |]; simpl;
          destruct (VoiceAssistant.languages_dict I !! output_lang_var g0)
            as [[] |]; simpl;
          try destruct (input_language g0 !! 0); simpl;
          try destruct (output_language g0 !! 0); simpl;
          repeat split; try done; simpl; not_in_list.
      + by repeat split.
      + unfold VoiceAssistant.clear_placeholder. destruct (String.eqb _ _); by repeat split.
      + unfold VoiceAssistant.add_placeholder. destruct (negb _); by repeat split.
      + unfold VoiceAssistant.select_input_language,
          VoiceAssistant.update_input_language.
        simpl. destruct (VoiceAssistant.languages_dict I !! name) as [[] |];
          by repeat split.
      + unfold VoiceAssistant.select_output_language,
          VoiceAssistant.update_output_language.
        simpl. destruct (VoiceAssistant.languages_dict I !! name) as [[] |];
          by repeat split.
      + by repeat split.
    - unfold P, VoiceAssistant.init. rewrite Hvoice. simpl.
      split; [done | split; [done |]].
      rewrite !elem_of_app.
      destruct (match api_key with Some k => Py.truthy k | None => false end),
        (VoiceAssistant.GEMINI_AVAILABLE I),
        (VoiceAssistant.missing_deps I); simpl; not_in_list. }
  destruct HP as (_ & Ha & Hl). done.
Qed.

Lemma no_conversation_without_voice_witness :
  conversation_active
    (after_actions (voice_assistant_handle no_pyaudio_imports)
       [ClickStart; ClickApply; ClickStart]
       (VoiceAssistant.init no_pyaudio_imports (Some "key"))) = false.
Proof.
  apply (no_conversation_without_voice no_pyaudio_imports (Some "key")
           [ClickStart; ClickApply; ClickStart] eq_refl).
Defined.

(** ** What a turn leaves alone *)

Lemma all_steps_bind {A B : Type} (Q : (GUI -> GUI) -> Prop) (t : Thread A)
    (k : A -> Thread B) :
  all_steps Q t -> (forall a, all_steps Q (k a)) -> all_steps Q (bind t k).
Proof.
  induction t as [a | e | step next IH]; intros Ht Hk; simpl; auto.
  destruct Ht as (Hq & Hn). split; [done |]. intros g. by apply IH.
Qed.

Lemma all_steps_try_except {A : Type} (Q : (GUI -> GUI) -> Prop) (t : Thread A)
    (h : exn -> Thread A) :
  all_steps Q t -> (forall e, all_steps Q (h e)) -> all_steps Q (try_except t h).
Proof.
  induction t as [a | e | step next IH]; intros Ht Hh; simpl; auto.
  destruct Ht as (Hq & Hn). split; [done |]. intros g. by apply IH.
Qed.

(** What every step keeps, the run with the main thread idle keeps. *)
Lemma exec_all_steps {A : Type} (Q : (GUI -> GUI) -> Prop) (P : GUI -> Prop)
    (t : Thread A) :
  (forall step, Q step -> forall g, P g -> P (step g)) ->
  all_steps Q t ->
  forall g, P g -> P (fst (exec t g)).
Proof.
  intros HQ. unfold exec.
  induction t as [a | e | step next IH]; intros Ht g Hg; simpl; auto.
  destruct Ht as (Hq & Hn). apply IH; [done |]. by apply (HQ step).
Qed.

Lemma all_steps_emit (Q : (GUI -> GUI) -> Prop) (e : event) :
  Q (emit e) -> all_steps Q (modify (emit e)).
Proof. by split. Qed.

Lemma all_steps_after (Q : (GUI -> GUI) -> Prop) (cb : callback) :
  Q (after cb) -> all_steps Q (modify (after cb)).
Proof. by split. Qed.

Lemma all_steps_call {A : Type} (Q : (GUI -> GUI) -> Prop) (e : event)
    (r : outcome A) :
  Q (emit e) -> all_steps Q (call e r).
Proof. split; [done |]. by destruct r. Qed.

Lemma all_steps_profile_at (Q : (GUI -> GUI) -> Prop) (i : nat) :
  Q id -> all_steps Q (input_language_at i) /\ all_steps Q (output_language_at i).
Proof.
  intros Hid.
  split; (split; [done |]); intros g; unfold item; simpl;
    by destruct (_ !! i).
Qed.

Lemma all_steps_client (Q : (GUI -> GUI) -> Prop) (cls : string) :
  Q id -> all_steps Q (the_gemini_client cls).
Proof. intros Hid. split; [done |]. intros g. simpl. by destruct (gemini_client g). Qed.

(** Walks through a pipeline, one stage at a time. *)
Ltac walk_steps :=
  repeat match goal with
    | |- all_steps _ (bind _ _) => apply all_steps_bind; [| intros ?]
    | |- all_steps _ (try_except _ _) => apply all_steps_try_except; [| intros ?]
    | |- all_steps _ (add_message _ _) => apply all_steps_emit
    | |- all_steps _ (print _) => apply all_steps_emit
    | |- all_steps _ (modify (emit _)) => apply all_steps_emit
    | |- all_steps _ (modify (after _)) => apply all_steps_after
    | |- all_steps _ (call _ _) => apply all_steps_call
    | |- all_steps _ (input_language_at _) => apply all_steps_profile_at
    | |- all_steps _ (output_language_at _) => apply all_steps_profile_at
    | |- all_steps _ (the_gemini_client _) => apply all_steps_client
    | |- all_steps _ (play_if_any _ ?f) => unfold play_if_any; destruct f
    | |- all_steps _ (if ?b then _ else _) => destruct b
    | |- all_steps _ (Ret _) => exact Logic.I
    | |- all_steps _ (modify _) => split; [| done]
    end.

Lemma logs_only_turns (W : World) (I : VoiceAssistant.Imports) (message : string) :
  all_steps logs_only (GuiApp.process_text_message W message)
  /\ all_steps logs_only (VoiceAssistant.process_text_message W I message).
Proof.
  split.
  - unfold GuiApp.process_text_message, GeminiClient.chat_with_gemini,
      GeminiClient.text_to_speech.
    walk_steps; first [by left | right; by eexists].
  - unfold VoiceAssistant.process_text_message, GeminiClient.chat_with_gemini.
    walk_steps; first [by left | right; by eexists].
Qed.

Lemma voice_turn_leaves_the_window (W : World) (message : string) :
  all_steps leaves_the_window (GuiApp.process_voice_message W message).
Proof.
  unfold GuiApp.process_voice_message, GeminiClient.chat_with_gemini,
    GeminiClient.text_to_speech.
  walk_steps.
  all: intros g; split; [by repeat split |].
  all: split;
    first [ exists []; simpl; by rewrite app_nil_r
          | eexists [_]; reflexivity ].
Qed.

(** A turn changes nothing of the window: run alone from [g] it leaves the
    profiles, the active flag, the client, the labels, the entry box and the
    picker variables as they are in [g]; a typed-text turn leaves the queue
    of the main thread as it is too.  All it does to the object is add to the
    log (and, for a voice turn of [gui_app.py], to that queue). *)
Theorem turn_changes_only_the_log (W : World) (I : VoiceAssistant.Imports)
    (message : string) (g : GUI) :
  let g1 := fst (exec (GuiApp.process_text_message W message) g) in
  let g2 := fst (exec (VoiceAssistant.process_text_message W I message) g) in
  let g3 := fst (exec (GuiApp.process_voice_message W message) g) in
  (same_widgets g g1 /\ after_queue g1 = after_queue g
   /\ exists evs, log g1 = log g ++ evs)
  /\ (same_widgets g g2 /\ after_queue g2 = after_queue g
      /\ exists evs, log g2 = log g ++ evs)
  /\ (same_widgets g g3
      /\ (exists cbs, after_queue g3 = after_queue g ++ cbs)
      /\ exists evs, log g3 = log g ++ evs).
Proof.
  intros g1 g2 g3.
  pose (P := fun g' : GUI =>
               same_widgets g g' /\ after_queue g' = after_queue g
               /\ exists evs, log g' = log g ++ evs).
  pose (P' := fun g' : GUI =>
                same_widgets g g'
                /\ (exists cbs, after_queue g' = after_queue g ++ cbs)
                /\ exists evs, log g' = log g ++ evs).
  assert (HP : forall step, logs_only step -> forall g', P g' -> P (step g')).
  { intros step [-> | [e ->]] g' (Hw & Hq & evs & Hl).
    - exact (conj Hw (conj Hq (ex_intro _ evs Hl))).
    - split; [exact Hw | split; [exact Hq |]].
      exists (evs ++ [e]). simpl. by rewrite Hl, app_assoc. }
  assert (HP' : forall step, leaves_the_window step ->
                 forall g', P' g' -> P' (step g')).
  { intros step Hstep g' (Hw & (cbs & Hq) & evs & Hl).
    destruct (Hstep g') as (Hw' & (cbs' & Hq') & evs' & Hl').
    split; [| split].
    - unfold same_widgets in *. intuition congruence.
    - exists (cbs ++ cbs'). by rewrite Hq', Hq, app_assoc.
    - exists (evs ++ evs'). by rewrite Hl', Hl, app_assoc. }
  assert (Hg : P g).
  { split; [by repeat split | split; [done |]]. exists []. by rewrite app_nil_r. }
  assert (Hg' : P' g).
  { split; [by repeat split | split]; exists []; by rewrite app_nil_r. }
  destruct (logs_only_turns W I message) as (H1 & H2).
  split; [| split].
  - exact (exec_all_steps logs_only P _ HP H1 g Hg).
  - exact (exec_all_steps logs_only P _ HP H2 g Hg).
  - exact (exec_all_steps leaves_the_window P' _ HP'
             (voice_turn_leaves_the_window W message) g Hg').
Qed.

(** ** Stop and start while the loop waits for speech *)

(** The loop of [gui_app.py] is waiting in [listen] (which then times out)
    when the user clicks.  After Stop, the pending attempt is finished, no
    further one is made and the loop is left at its next check.  After Stop
    and then Start before that check, the loop that was to end sees the flag
    set again and goes on with the next attempts, while a second loop has
    been started beside it. *)
Theorem stop_then_start_keeps_the_old_loop (W : World) (g : GUI) (c : attempt)
    (rest : list attempt) (m : string) :
  conversation_active g = true ->
  gemini_client g = true ->
  listen c = Raised (WaitTimeoutError m) ->
  let restart := fun g => GuiApp.start_conversation (GuiApp.stop_conversation g) in
  run (GuiApp.voice_loop W (c :: rest)) [id; GuiApp.stop_conversation] g =
    (emit Listen (GuiApp.stop_conversation g), Returned Left)
  /\ run (GuiApp.voice_loop W (c :: rest)) [id; restart] g =
     exec (GuiApp.voice_loop W rest) (emit Listen (restart g))
  /\ conversation_active (emit Listen (restart g)) = true
  /\ new_events g (restart g) =
     [Message "system" "🛑 Voice conversation stopped.";
      Message "system" "🎤 Voice conversation started. Speak now...";
      Spawn TaskVoiceLoop].
Proof.
  intros Hact Hcl Hl restart. subst restart.
  assert (Hstart : GuiApp.start_conversation (GuiApp.stop_conversation g) =
            emit (Spawn TaskVoiceLoop)
              (emit (Message "system" "🎤 Voice conversation started. Speak now...")
                 (set_labels "🎤 Listening..." "🎤 Listening..."
                    (set_conversation_active true (GuiApp.stop_conversation g))))).
  { unfold GuiApp.start_conversation. simpl. by rewrite Hcl. }
  split; [| split; [| split]].
  - cbn [GuiApp.voice_loop]. unfold GuiApp.voice_loop_body, capture, read, call.
    simpl. rewrite Hact, Hl. simpl. destruct rest; reflexivity.
  - cbn [GuiApp.voice_loop]. unfold GuiApp.voice_loop_body, capture, read, call.
    simpl. rewrite Hact, Hl. simpl. reflexivity.
  - by rewrite Hstart.
  - rewrite Hstart. apply new_events_app. simpl. by rewrite <- !app_assoc.
Qed.

Lemma stop_then_start_keeps_the_old_loop_witness :
  run (GuiApp.voice_loop echo_world [timed_out; timed_out])
      [id; fun g => GuiApp.start_conversation (GuiApp.stop_conversation g)]
      gui_app_listening =
  exec (GuiApp.voice_loop echo_world [timed_out])
       (emit Listen (GuiApp.start_conversation
                       (GuiApp.stop_conversation gui_app_listening))).
Proof.
  apply (stop_then_start_keeps_the_old_loop echo_world gui_app_listening
           timed_out [timed_out] "listening timed out");
    reflexivity.
Defined.

(** ** With a key *)

(** When [GEMINI_API_KEY] is set to a non-empty value, [main] shows no
    configuration error: it builds the application window once, with the
    client in place and no conversation active, and enters the event loop;
    after the loop it prints at most one line.  In that window a first click
    on Start activates the conversation and starts exactly one voice
    loop. *)
Theorem api_key_present_runs_the_app (environ : gmap string string)
    (loop : Main.mainloop_end) (key : string) :
  environ !! "GEMINI_API_KEY" = Some key ->
  key <> "" ->
  exists g rest,
    Main.main environ loop = Main.TkRoot :: Main.NewApp g :: Main.Mainloop :: rest
    /\ length rest <= 1
    /\ (forall title text, Main.ShowError title text ∉ Main.main environ loop)
    /\ gemini_client g = true
    /\ conversation_active g = false
    /\ conversation_active (GuiApp.start_conversation g) = true
    /\ new_events g (GuiApp.start_conversation g) =
       [Message "system" "🎤 Voice conversation started. Speak now...";
        Spawn TaskVoiceLoop].
Proof.
  intros Hkey Hne. destruct key as [| ch key]; [done |].
  exists (GuiApp.init (Some (String ch key))). eexists.
  unfold Main.main. rewrite Hkey. simpl.
  split; [reflexivity |].
  split; [destruct loop; simpl; lia |].
  split; [intros; destruct loop; not_in_list |].
  repeat split.
Qed.

Lemma api_key_present_runs_the_app_witness :
  exists g rest,
    Main.main {[ "GEMINI_API_KEY" := "key" ]} Main.KeyboardInterrupt =
      Main.TkRoot :: Main.NewApp g :: Main.Mainloop :: rest
    /\ length rest <= 1
    /\ (forall title text,
           Main.ShowError title text ∉
             Main.main {[ "GEMINI_API_KEY" := "key" ]} Main.KeyboardInterrupt)
    /\ gemini_client g = true
    /\ conversation_active g = false
    /\ conversation_active (GuiApp.start_conversation g) = true
    /\ new_events g (GuiApp.start_conversation g) =
       [Message "system" "🎤 Voice conversation started. Speak now...";
        Spawn TaskVoiceLoop].
Proof.
  apply (api_key_present_runs_the_app {[ "GEMINI_API_KEY" := "key" ]}
           Main.KeyboardInterrupt "key"); [reflexivity | discriminate].
Defined.

(** ** The microphone test *)

(** The microphone test of [voice_assistant.py] announces itself, makes one
    capture attempt and ends with exactly one verdict message: a system
    message when speech was recognised, an error message otherwise.  The
    recognition is always asked for "en-US", whatever input language is
    selected. *)
Theorem microphone_test_reports_once (c : attempt) (g : GUI) :
  let events := new_events g (fst (exec (VoiceAssistant.test_mic_thread c) g)) in
  exists tried kind verdict,
    events =
      Message "system" "🎤 Testing microphone... Speak now!" :: Listen ::
      tried ++ [Message kind verdict]
    /\ (tried = [] \/ tried = [Recognize "en-US"])
    /\ (kind = "system" \/ kind = "error")
    /\ (kind = "system" <->
        exists text,
          listen c = Returned tt /\ recognize_google c "en-US" = Returned text).
Proof.
  intros events. subst events.
  unfold VoiceAssistant.test_mic_thread, add_message.
  exec_eqns.
  destruct (listen c) as [[] | [m | m | m]] eqn:Hl; exec_eqns.
  1: destruct (recognize_google c "en-US") as [text | [m | m | m]] eqn:Hr;
    exec_eqns.
  all: events_known.
  1: eexists [Recognize "en-US"], "system", _.
  2-4: eexists [Recognize "en-US"], "error", _.
  5-7: eexists [], "error", _.
  all: split; [reflexivity |]; split; [by auto |]; split; [by auto |].
  all: split; [| intros (? & ? & ?)]; try done.
  - by eexists.
Qed.

(** ** Leaving the loop of [voice_assistant.py] *)

